(** * The streaming consumer and the listing renderer of the writing assistant

    A shallow embedding of [frontend/src/App.jsx] (both variants of the
    component: the generic writing assistant and the real-estate listing
    generator), with the platform primitives the component calls
    ([String.prototype.split], [startsWith], [slice], [trim],
    [TextDecoder.decode], [fetch]) written out as far as the component
    depends on them. *)

From Stdlib Require Import List NArith Bool Arith Lia Permutation.
From Stdlib.Strings Require Import String Ascii Byte.
From Stdlib Require Import DecimalString.
From Equations Require Import Equations.
From Equations.Prop Require Import Logic.
Import ListNotations.
Local Open Scope list_scope.

(** ** JavaScript strings

    A JavaScript string is a sequence of UTF-16 code units; every string
    operation the component uses ([split], [startsWith], [slice], [===],
    [+], the regular expression of [renderMarkdown]) works on code units. *)

Definition jsstring := list N.

(** An ASCII literal of the source, as code units. *)
Definition js (s : string) : jsstring :=
  map N_of_ascii (list_ascii_of_string s).

Module JS.

(** [a === b] on strings. *)
Fixpoint eqb (a b : jsstring) : bool :=
  match a, b with
  | [], [] => true
  | x :: a', y :: b' => N.eqb x y && eqb a' b'
  | _, _ => false
  end.

(** [s.startsWith(p)]. *)
Fixpoint startsWith (s p : jsstring) {struct p} : bool :=
  match p, s with
  | [], _ => true
  | x :: p', y :: s' => N.eqb x y && startsWith s' p'
  | _ :: _, [] => false
  end.

Arguments startsWith : simpl never.

(** [s.endsWith(p)]. *)
Definition endsWith (s p : jsstring) : bool :=
  startsWith (rev s) (rev p).

(** [s.slice(n)] for a non-negative [n]. *)
Definition slice_from (n : nat) (s : jsstring) : jsstring := skipn n s.

(** [s.slice(a, -b)]: from index [a] up to [length s - b] (clamped at 0);
    empty when the end is not after the start. *)
Definition slice_between (a b : nat) (s : jsstring) : jsstring :=
  firstn ((List.length s - b) - a) (skipn a s).

Definition LF : N := 10.

(** [s.split('\n')]: the substrings between line feeds; the empty string
    splits to one empty substring. *)
Fixpoint split_lines (s : jsstring) : list jsstring :=
  match s with
  | [] => [[]]
  | c :: s' =>
      if N.eqb c LF then [] :: split_lines s'
      else match split_lines s' with
           | l :: ls => (c :: l) :: ls
           | [] => [[c]]
           end
  end.

(** White space and line terminators, as [String.prototype.trim] strips
    them. *)
Definition is_space (c : N) : bool :=
  existsb (N.eqb c)
    [0x09; 0x0A; 0x0B; 0x0C; 0x0D; 0x20; 0xA0; 0x1680; 0x2028; 0x2029;
     0x202F; 0x205F; 0x3000; 0xFEFF]%N
  || (0x2000 <=? c)%N && (c <=? 0x200A)%N.

Fixpoint trim_start (s : jsstring) : jsstring :=
  match s with
  | c :: s' => if is_space c then trim_start s' else s
  | [] => []
  end.

(** [s.trim()]. *)
Definition trim (s : jsstring) : jsstring :=
  rev (trim_start (rev (trim_start s))).

(** Truthiness of a string: the empty string is the only falsy one. *)
Definition truthy (s : jsstring) : bool :=
  match s with [] => false | _ :: _ => true end.

(** The decimal digits of a number, as in a template literal. *)
Definition of_number (n : N) : jsstring :=
  js (NilZero.string_of_uint (N.to_uint n)).

End JS.

(** ** [TextDecoder]

    [new TextDecoder()] is a UTF-8 decoder, not fatal, stripping a
    byte-order mark.  The model follows the Encoding Standard: the UTF-8
    decoder's handler with its five variables, the end-of-queue step, and
    [decode(input, {stream})] with the do-not-flush and BOM-seen flags of
    the decoder object. *)

Module TextDecoder.

Local Open Scope N_scope.

Record utf8 := {
  code_point : N;
  bytes_seen : N;
  bytes_needed : N;
  lower_boundary : N;
  upper_boundary : N
}.

Definition utf8_initial : utf8 :=
  {| code_point := 0; bytes_seen := 0; bytes_needed := 0;
     lower_boundary := 0x80; upper_boundary := 0xBF |}.

Definition REPLACEMENT : N := 0xFFFD.
Definition BOM : N := 0xFEFF.

Definition in_range (lo hi b : N) : bool := (lo <=? b) && (b <=? hi).

(** The handler when no byte is pending (bytes needed is 0). *)
Definition lead (b : N) : list N * utf8 :=
  if b <=? 0x7F then ([b], utf8_initial)
  else if in_range 0xC2 0xDF b then
    ([], {| code_point := N.land b 0x1F; bytes_seen := 0; bytes_needed := 1;
            lower_boundary := 0x80; upper_boundary := 0xBF |})
  else if in_range 0xE0 0xEF b then
    ([], {| code_point := N.land b 0xF; bytes_seen := 0; bytes_needed := 2;
            lower_boundary := if b =? 0xE0 then 0xA0 else 0x80;
            upper_boundary := if b =? 0xED then 0x9F else 0xBF |})
  else if in_range 0xF0 0xF4 b then
    ([], {| code_point := N.land b 0x7; bytes_seen := 0; bytes_needed := 3;
            lower_boundary := if b =? 0xF0 then 0x90 else 0x80;
            upper_boundary := if b =? 0xF4 then 0x8F else 0xBF |})
  else ([REPLACEMENT], utf8_initial).

(** One byte through the handler, in replacement mode.  A byte outside
    the boundaries ends the pending sequence with U+FFFD and is read
    again with no byte pending. *)
Definition handler (st : utf8) (b : N) : list N * utf8 :=
  if bytes_needed st =? 0 then lead b
  else if in_range (lower_boundary st) (upper_boundary st) b then
    let cp := N.lor (N.shiftl (code_point st) 6) (N.land b 0x3F) in
    let seen := bytes_seen st + 1 in
    if seen =? bytes_needed st then ([cp], utf8_initial)
    else ([], {| code_point := cp; bytes_seen := seen;
                 bytes_needed := bytes_needed st;
                 lower_boundary := 0x80; upper_boundary := 0xBF |})
  else let (out, st') := lead b in (REPLACEMENT :: out, st').

Fixpoint run (st : utf8) (input : list byte) : list N * utf8 :=
  match input with
  | [] => ([], st)
  | b :: rest =>
      let (out, st') := handler st (Byte.to_N b) in
      let (out', st'') := run st' rest in
      (out ++ out', st'')
  end.

(** End of queue: a pending sequence becomes U+FFFD. *)
Definition flush (st : utf8) : list N :=
  if bytes_needed st =? 0 then [] else [REPLACEMENT].

(** A scalar value as UTF-16 code units. *)
Definition utf16 (cp : N) : jsstring :=
  if cp <? 0x10000 then [cp]
  else [0xD800 + N.shiftr (cp - 0x10000) 10;
        0xDC00 + N.land (cp - 0x10000) 0x3FF].

(** The decoder object: it is created once and mutated by [decode]. *)
Record t := {
  decoder : utf8;
  bom_seen : bool;
  do_not_flush : bool
}.

(** [new TextDecoder()]. *)
Definition new : t :=
  {| decoder := utf8_initial; bom_seen := false; do_not_flush := false |}.

(** Serialising the scalar values: the first one is dropped when it is a
    byte-order mark and none was seen yet. *)
Definition serialize (seen : bool) (out : list N) : list N * bool :=
  match out with
  | [] => ([], seen)
  | c :: out' => if seen then (out, true)
                 else (if c =? BOM then out' else out, true)
  end.

(** [d.decode(input, {stream})].  Without [stream] the call starts from a
    fresh decoder unless the previous call was a streaming one, and it
    flushes at the end of [input]. *)
Definition decode (stream : bool) (d : t) (input : list byte)
  : jsstring * t :=
  let d0 := if do_not_flush d then d else new in
  let (out, st) := run (decoder d0) input in
  let out := if stream then out else out ++ flush st in
  let (out, seen) := serialize (bom_seen d0) out in
  (flat_map utf16 out,
   {| decoder := st; bom_seen := seen; do_not_flush := stream |}).

(** The text of a whole byte sequence, decoded in one call. *)
Definition decode_all (input : list byte) : jsstring :=
  fst (decode false new input).

(** The scalar values of a byte sequence decoded in one call, before the
    byte-order mark is dropped. *)
Definition raw (input : list byte) : list N :=
  fst (run utf8_initial input) ++ flush (snd (run utf8_initial input)).

(** The first scalar value that comes out of [input] from state [st],
    the flush included. *)
Definition first_out (st : utf8) (input : list byte) : option N :=
  hd_error (fst (run st input) ++ flush (snd (run st input))).

(** The input begins with the bytes EF BB BF. *)
Definition starts_with_bom (c : list byte) : bool :=
  match c with
  | b1 :: b2 :: b3 :: _ =>
      (Byte.to_N b1 =? 0xEF) && (Byte.to_N b2 =? 0xBB)
      && (Byte.to_N b3 =? 0xBF)
  | _ => false
  end.

(** The input is empty or ends with a line feed. *)
Definition ends_with_line_feed (c : list byte) : bool :=
  match rev c with
  | [] => true
  | b :: _ => Byte.to_N b =? 10
  end.

Definition no_bom (c : list byte) : bool := negb (starts_with_bom c).

(** The lower boundary of every state the handler reaches is at or above
    0x80. *)
Definition bounded (st : utf8) : Prop := 0x80 <= lower_boundary st.

(** A pending sequence whose value so far, with [k] bytes to come, cannot
    grow into U+FEFF. *)
Definition off_bom (st : utf8) : Prop :=
  bytes_needed st <> 0 /\ bytes_seen st < bytes_needed st <= 3 /\
  0x80 <= lower_boundary st /\ upper_boundary st <= 0xBF /\
  let k := bytes_needed st - bytes_seen st in
  (code_point st + 1) * 64 ^ k <= 0xFEFF \/
  0xFEFF < code_point st * 64 ^ k \/
  (k = 3 /\ code_point st = 0 /\ 0x90 <= lower_boundary st).

End TextDecoder.

(** The bytes of an ASCII literal. *)
Definition bytes (s : string) : list byte := list_byte_of_string s.

(** ** The writing assistant: component state, network, handlers *)

Module Writing.

(** The [useState] cells of [App]. *)
Record State := {
  prompt : jsstring;
  writingType : jsstring;
  tone : jsstring;
  content : jsstring;
  isLoading : bool;
  error : jsstring;
  useStreaming : bool
}.

Definition initial : State :=
  {| prompt := []; writingType := js "blog_post";
     tone := js "professional"; content := []; isLoading := false;
     error := []; useStreaming := true |}.

Definition setPrompt (v : jsstring) (st : State) : State :=
  {| prompt := v; writingType := writingType st; tone := tone st;
     content := content st; isLoading := isLoading st; error := error st;
     useStreaming := useStreaming st |}.

Definition setContent (v : jsstring) (st : State) : State :=
  {| prompt := prompt st; writingType := writingType st; tone := tone st;
     content := v; isLoading := isLoading st; error := error st;
     useStreaming := useStreaming st |}.

Definition setIsLoading (v : bool) (st : State) : State :=
  {| prompt := prompt st; writingType := writingType st; tone := tone st;
     content := content st; isLoading := v; error := error st;
     useStreaming := useStreaming st |}.

Definition setError (v : jsstring) (st : State) : State :=
  {| prompt := prompt st; writingType := writingType st; tone := tone st;
     content := content st; isLoading := isLoading st; error := v;
     useStreaming := useStreaming st |}.

Definition setUseStreaming (v : bool) (st : State) : State :=
  {| prompt := prompt st; writingType := writingType st; tone := tone st;
     content := content st; isLoading := isLoading st; error := error st;
     useStreaming := v |}.

(** *** The network, as the component sees it *)

Inductive endpoint := generate | generate_stream.

(** The object given to [JSON.stringify] in the request body. *)
Record request := {
  url : endpoint;
  body_prompt : jsstring;
  body_writing_type : jsstring;
  body_tone : jsstring
}.

(** A body, as its reader sees it: the chunks that [reader.read()] gives
    in order, then either [done] or a read that rejects. *)
Record ReadableStream := {
  values : list (list byte);
  failure : option jsstring
}.

(** A response: its status, what [response.json()] gives (a rejection
    message or [data.content]), and [response.body], which is [null] for
    a response without a body.  By the Fetch standard that is every
    response with a null body status; 204 and 205 are the ones in the ok
    range. *)
Record response := {
  status : N;
  json : jsstring + jsstring;
  body : option ReadableStream
}.

(** The chunks the reader of the response gives, none without a body. *)
Definition chunks (r : response) : list (list byte) :=
  match body r with
  | Some b => values b
  | None => []
  end.

(** The message of the read that rejects, if one does. *)
Definition broken (r : response) : option jsstring :=
  match body r with
  | Some b => failure b
  | None => None
  end.

(** [response.ok]. *)
Definition ok (r : response) : bool :=
  (200 <=? status r)%N && (status r <=? 299)%N.

(** [fetch] resolves to a response or rejects with an error message. *)
Inductive fetched :=
| Rejected (message : jsstring)
| Responded (r : response).

Definition network := request -> fetched.

(** What a handler did to the outside: the requests sent and the calls of
    [reader.read()], in order. *)
Inductive effect :=
| Fetch (r : request)
| Read.

(** How a block ends: normally, or by an [Error] with a message. *)
Definition completion := option jsstring.

Definition the_request (u : endpoint) (st : State) : request :=
  {| url := u; body_prompt := prompt st;
     body_writing_type := writingType st; body_tone := tone st |}.

(** The [catch] block of both generators. *)
Definition catch (message : jsstring) (st : State) : State :=
  setError (js "Error: " ++ message) st.

Definition http_error (r : response) : jsstring :=
  js "HTTP error! status: " ++ JS.of_number (status r).

(** The message of the [TypeError] thrown for [getReader] read on [null],
    in V8's wording; other engines word it differently. *)
Definition null_body_message : jsstring :=
  js "Cannot read properties of null (reading 'getReader')".

(** *** [generateRegular] *)

Definition generateRegular (net : network) (st : State)
  : State * list effect :=
  let req := the_request generate st in
  (match net req with
   | Rejected m => catch m st
   | Responded r =>
       if negb (ok r) then catch (http_error r) st
       else match json r with
            | inl m => catch m st
            | inr data_content => setContent data_content st
            end
   end, [Fetch req]).

(** *** [generateStreaming] *)

(** The body of [for (const line of lines)] for one line. *)
Definition for_line (line : jsstring) (st : State) : State * completion :=
  if negb (JS.startsWith line (js "data: ")) then (st, None)
  else
    let data := JS.slice_from 6 line in
    if JS.eqb data (js "[DONE]") then (st, None)
    else if JS.startsWith data (js "[ERROR]") then (st, Some data)
    else (setContent (content st ++ data) st, None).

Fixpoint for_lines (lines : list jsstring) (st : State)
  : State * completion :=
  match lines with
  | [] => (st, None)
  | line :: rest =>
      match for_line line st with
      | (st', None) => for_lines rest st'
      | thrown => thrown
      end
  end.

(** The [while (true)] loop: the state, the number of [reader.read()]
    calls made, and how the loop ended.  The decoder object is the one
    created before the loop. *)
Fixpoint read_loop (decoder : TextDecoder.t) (cs : list (list byte))
    (last : option jsstring) (st : State) : State * nat * completion :=
  match cs with
  | [] => (st, 1, last)
  | value :: rest =>
      let (chunk, decoder') := TextDecoder.decode false decoder value in
      let lines := JS.split_lines chunk in
      match for_lines lines st with
      | (st', None) =>
          let '(st'', n, c) := read_loop decoder' rest last st' in
          (st'', S n, c)
      | (st', Some m) => (st', 1, Some m)
      end
  end.

Definition generateStreaming (net : network) (st : State)
  : State * list effect :=
  let req := the_request generate_stream st in
  match net req with
  | Rejected m => (catch m st, [Fetch req])
  | Responded r =>
      if negb (ok r) then (catch (http_error r) st, [Fetch req])
      else
        match body r with
        | None => (catch null_body_message st, [Fetch req])
        | Some response_body =>
            let decoder := TextDecoder.new in
            let st := setContent [] st in
            let '(st, n, c) :=
              read_loop decoder (values response_body)
                (failure response_body) st in
            (match c with
             | None => st
             | Some m => catch m st
             end, Fetch req :: repeat Read n)
        end
  end.

(** *** [handleSubmit] and the submit button *)

Definition handleSubmit (net : network) (st : State)
  : State * list effect :=
  let st := setError [] st in
  let st := setContent [] st in
  let st := setIsLoading true st in
  let (st, log) :=
    if useStreaming st then generateStreaming net st
    else generateRegular net st in
  (setIsLoading false st, log).

(** [disabled={isLoading || !prompt.trim()}] on the submit button. *)
Definition disabled (st : State) : bool :=
  isLoading st || negb (JS.truthy (JS.trim (prompt st))).

(** Submitting the form: the form has one submit button and
    [onSubmit={handleSubmit}]; a disabled button submits nothing. *)
Definition submit (net : network) (st : State) : State * list effect :=
  if disabled st then (st, []) else handleSubmit net st.

(** *** The request's outcome, read off the component state *)

(** The request has ended without an error message. *)
Definition Completed (st : State) : Prop :=
  isLoading st = false /\ error st = [].

(** The request has ended with the caller-visible message [m]. *)
Definition Failed (st : State) (m : jsstring) : Prop :=
  isLoading st = false /\ error st = m /\ m <> [].

(** What the page shows: the output block is rendered when the content
    is not empty, the error block when the error is not empty. *)
Definition output (st : State) : option jsstring :=
  if JS.truthy (content st) then Some (content st) else None.

Definition alert (st : State) : option jsstring :=
  if JS.truthy (error st) then Some (error st) else None.

(** A server that answers every request with the same response. *)
Definition always (r : response) : network := fun _ => Responded r.

(** A successful streaming response with the given chunks. *)
Definition streamed (cs : list (list byte)) : response :=
  {| status := 200; json := inl [];
     body := Some {| values := cs; failure := None |} |}.

(** A frame on the wire, as text: the prefix, the payload, a line feed and
    a blank line. *)
Definition frame (payload : jsstring) : jsstring :=
  js "data: " ++ payload ++ [JS.LF; JS.LF].

(** A payload that is text to append: one line, not a sentinel. *)
Definition is_delta (payload : jsstring) : bool :=
  negb (existsb (N.eqb JS.LF) payload)
  && negb (JS.eqb payload (js "[DONE]"))
  && negb (JS.startsWith payload (js "[ERROR]")).

(** The end signal. *)
Definition is_done (payload : jsstring) : bool :=
  JS.eqb payload (js "[DONE]").

(** A payload of a stream that does not fail. *)
Definition is_plain (payload : jsstring) : bool :=
  is_delta payload || is_done payload.

(** The response [r] with its body delivered as the chunks [cs]. *)
Definition with_chunks (r : response) (cs : list (list byte)) : response :=
  {| status := status r; json := json r;
     body := Some {| values := cs; failure := broken r |} |}.

(** The message the component shows for a completion. *)
Definition message_of (c : completion) : jsstring :=
  match c with
  | None => []
  | Some m => js "Error: " ++ m
  end.

(** The state and the completion of a loop, without the count of
    reads. *)
Definition outcome (x : State * nat * completion) : State * completion :=
  (fst (fst x), snd x).

(** The lines of all chunks, each chunk decoded and split on its own. *)
Definition lines_of (cs : list (list byte)) : list jsstring :=
  flat_map (fun value => JS.split_lines (TextDecoder.decode_all value)) cs.

(** The endpoint [handleSubmit] calls: [/generate/stream] when streaming is
    enabled, [/generate] otherwise. *)
Definition endpoint_for (st : State) : endpoint :=
  if useStreaming st then generate_stream else generate.

(** *** Events, after the description of the stream

    The definitions below follow the description of the wire format and
    of the event classifier, not the code; the handlers are compared with
    them.  A line that begins with "data: " is a frame, and the rest of
    the line is its payload; other lines are discarded.  The payload
    "[DONE]" is the end signal, a payload that begins with "[ERROR]" is
    an error signal carrying the payload, and any other payload is a text
    delta. *)
Inductive event :=
| TextDelta (text : jsstring)
| Done
| ErrorSignal (message : jsstring).

Definition payload_of (line : jsstring) : option jsstring :=
  if JS.startsWith line (js "data: ") then Some (JS.slice_from 6 line)
  else None.

Definition classify (payload : jsstring) : event :=
  if JS.eqb payload (js "[DONE]") then Done
  else if JS.startsWith payload (js "[ERROR]") then ErrorSignal payload
  else TextDelta payload.

Definition event_of (line : jsstring) : option event :=
  option_map classify (payload_of line).

(** The text deltas of a list of lines, joined in order. *)
Fixpoint text_deltas (lines : list jsstring) : jsstring :=
  match lines with
  | [] => []
  | line :: rest =>
      match event_of line with
      | Some (TextDelta text) => text ++ text_deltas rest
      | _ => text_deltas rest
      end
  end.

(** The message of the first error signal among the lines. *)
Fixpoint first_error (lines : list jsstring) : option jsstring :=
  match lines with
  | [] => None
  | line :: rest =>
      match event_of line with
      | Some (ErrorSignal message) => Some message
      | _ => first_error rest
      end
  end.

(** The lines before the first error signal. *)
Fixpoint before_error (lines : list jsstring) : list jsstring :=
  match lines with
  | [] => []
  | line :: rest =>
      match event_of line with
      | Some (ErrorSignal _) => []
      | _ => line :: before_error rest
      end
  end.

(** The accumulated result of one request, from what [fetch] gave and the
    mode: the text deltas received before the first error signal for a
    stream, [data.content] for a JSON body, and nothing for a request that
    failed before it gave any text. *)
Definition new_result (f : fetched) (streaming : bool) : jsstring :=
  match f with
  | Rejected _ => []
  | Responded r =>
      if negb (ok r) then []
      else if streaming then text_deltas (before_error (lines_of (chunks r)))
      else match json r with
           | inr data_content => data_content
           | inl _ => []
           end
  end.

(** The completion of a stream: the first error signal, or how the last
    read ended. *)
Definition completion_of (lines : list jsstring) (last : completion)
  : completion :=
  match first_error lines with
  | Some message => Some message
  | None => last
  end.

(** What the output block shows for a text: nothing for the empty text. *)
Definition displayed (text : jsstring) : option jsstring :=
  if JS.truthy text then Some text else None.

End Writing.

Definition NL : list byte := [x0a].

(** A form filled in with a prompt, streaming enabled. *)
Definition ready : Writing.State := Writing.setPrompt (js "hi") Writing.initial.

(** The two chunks of the end-to-end scenario. *)
Definition hello_chunks : list (list byte) :=
  [bytes "data: Hello";
   bytes " world" ++ NL ++ NL ++ bytes "data: [DONE]" ++ NL ++ NL].

(** The same text in chunks that end on line ends. *)
Definition whole_line_chunks : list (list byte) :=
  [bytes "data: Hello " ++ NL ++ NL;
   bytes "data: world" ++ NL ++ NL ++ bytes "data: [DONE]" ++ NL ++ NL].

(** The line "data: caf" with U+00E9 after it, cut inside the two bytes of
    that character. *)
Definition cafe_chunks : list (list byte) :=
  [bytes "data: caf" ++ [xc3]; [xa9] ++ NL].


(** A delta, then an error frame with a frame after it, then one more
    chunk. *)
Definition error_chunk : list byte :=
  bytes "data:  text" ++ NL ++ bytes "data: [ERROR] rate limited" ++ NL
  ++ bytes "data: never" ++ NL.

Definition error_stream : list (list byte) :=
  [bytes "data: partial" ++ NL ++ NL; error_chunk; bytes "data: read" ++ NL].



(** A response whose body gives one delta and then fails to read. *)
Definition broken_stream : Writing.response :=
  {| Writing.status := 200; Writing.json := inl [];
     Writing.body :=
       Some {| Writing.values := [bytes "data: partial" ++ NL ++ NL];
               Writing.failure := Some (js "network error") |} |}.

(** A response with status 500. *)
Definition server_error : Writing.response :=
  {| Writing.status := 500; Writing.json := inl (js "no body");
     Writing.body :=
       Some {| Writing.values := []; Writing.failure := None |} |}.

(** A response with status 204: it has no body. *)
Definition no_content : Writing.response :=
  {| Writing.status := 204;
     Writing.json := inl (js "Unexpected end of JSON input");
     Writing.body := None |}.

(** A form with a prompt of white space only. *)
Definition blank_form : Writing.State :=
  Writing.setPrompt (js "  " ++ [9; 10; 0xA0]%N) Writing.initial.

(** A form in non-streaming mode, with the text of an earlier request. *)
Definition regular_form : Writing.State :=
  Writing.setUseStreaming false (Writing.setContent (js "earlier text") ready).

(** A form in streaming mode, with the text of an earlier request. *)
Definition used_form : Writing.State :=
  Writing.setContent (js "earlier text") ready.

(** ** The listing generator: [renderMarkdown] and the regenerate handlers *)

Module Listing.

(** *** [renderMarkdown] *)

Definition STAR : N := 42.

(** The characters the dot of a regular expression does not match. *)
Definition is_line_terminator (c : N) : bool :=
  existsb (N.eqb c) [0x0A; 0x0D; 0x2028; 0x2029]%N.

(** [\*\*] at the start of [s]: what follows the two stars. *)
Definition two_stars (s : jsstring) : option jsstring :=
  match s with
  | c1 :: c2 :: rest =>
      if N.eqb c1 STAR && N.eqb c2 STAR then Some rest else None
  | _ => None
  end.

(** The rest of the pattern after the opening stars, [.*?\*\*], tried at
    the start of [s]: the shortest run of dot characters followed by two
    stars.  Gives what was consumed and what is left. *)
Fixpoint lazy_close (s : jsstring) : option (jsstring * jsstring) :=
  match two_stars s with
  | Some rest => Some ([STAR; STAR], rest)
  | None =>
      match s with
      | [] => None
      | c :: s' =>
          if is_line_terminator c then None
          else match lazy_close s' with
               | Some (m, rest) => Some (c :: m, rest)
               | None => None
               end
      end
  end.

(** The pattern [\*\*.*?\*\*] matched at the start of [s]: the match and
    what follows it. *)
Definition match_bold (s : jsstring) : option (jsstring * jsstring) :=
  match two_stars s with
  | Some s' =>
      match lazy_close s' with
      | Some (m, rest) => Some (STAR :: STAR :: m, rest)
      | None => None
      end
  | None => None
  end.

Lemma two_stars_inv s rest :
  two_stars s = Some rest -> s = STAR :: STAR :: rest.
Proof.
  destruct s as [|c1 [|c2 s]]; simpl; try discriminate.
  destruct (N.eqb_spec c1 STAR), (N.eqb_spec c2 STAR); simpl;
    try discriminate.
  intros [= <-]. subst. reflexivity.
Qed.

Lemma lazy_close_eq s :
  lazy_close s =
  match two_stars s with
  | Some rest => Some ([STAR; STAR], rest)
  | None =>
      match s with
      | [] => None
      | c :: s' =>
          if is_line_terminator c then None
          else match lazy_close s' with
               | Some (m, rest) => Some (c :: m, rest)
               | None => None
               end
      end
  end.
Proof. destruct s; reflexivity. Qed.

(** A match consumes what it returns: [s] is the match followed by the
    rest. *)
Lemma lazy_close_app s m rest :
  lazy_close s = Some (m, rest) -> s = m ++ rest.
Proof.
  revert m rest. induction s as [|c s IH]; intros m rest;
    rewrite lazy_close_eq.
  - discriminate.
  - destruct (two_stars (c :: s)) as [r|] eqn:E.
    + intros [= <- <-]. apply two_stars_inv in E. exact E.
    + destruct (is_line_terminator c); [discriminate|].
      destruct (lazy_close s) as [[m' r]|]; [|discriminate].
      intros [= <- <-]. simpl. f_equal. apply IH. reflexivity.
Qed.

Lemma match_bold_app s m rest :
  match_bold s = Some (m, rest) -> s = m ++ rest.
Proof.
  unfold match_bold. destruct (two_stars s) as [s'|] eqn:E; [|discriminate].
  destruct (lazy_close s') as [[m' r]|] eqn:E'; [|discriminate].
  intros [= <- <-]. apply two_stars_inv in E. apply lazy_close_app in E'.
  subst. reflexivity.
Qed.

Lemma match_bold_shorter s m rest :
  match_bold s = Some (m, rest) -> List.length rest < List.length s.
Proof.
  intros H. pose proof (match_bold_app _ _ _ H) as E.
  unfold match_bold in H.
  destruct (two_stars s) as [s'|]; [|discriminate].
  destruct (lazy_close s') as [[m' r]|]; [|discriminate].
  injection H as <- <-. subst s. rewrite length_app. simpl. lia.
Qed.

(** [text.split] by the pattern, with the pattern in a capturing group, on
    a non-empty text.  The pattern is tried at each position from left to
    right; [pending] is the text since the last match.  Where the pattern
    matches, the pending text is one part, the captured match the next, and
    the search goes on after the match; the text after the last match is
    the last part. *)
Equations? split_from (pending s : jsstring) : list jsstring
  by wf (List.length s) lt :=
  split_from pending [] := [pending];
  split_from pending (c :: s') with inspect (match_bold (c :: s')) := {
    | exist _ (Some (m, rest)) H => pending :: m :: split_from [] rest;
    | exist _ None _ => split_from (pending ++ [c]) s' }.
Proof. apply match_bold_shorter in H. exact H. Qed.

Definition split_bold (s : jsstring) : list jsstring := split_from [] s.

(** What [renderMarkdown] returns for one part: the part itself or a
    [<strong>] element. *)
Inductive node :=
| Text (s : jsstring)
| Strong (s : jsstring).

(** [part.startsWith('**') && part.endsWith('**')]. *)
Definition starred (part : jsstring) : bool :=
  JS.startsWith part (js "**") && JS.endsWith part (js "**").

Definition render_part (part : jsstring) : node :=
  if starred part then Strong (JS.slice_between 2 2 part) else Text part.

(** [renderMarkdown(text)]; [None] is [null]. *)
Definition renderMarkdown (text : jsstring) : option (list node) :=
  if negb (JS.truthy text) then None
  else Some (map render_part (split_bold text)).

(** The characters a node shows. *)
Definition node_text (n : node) : jsstring :=
  match n with Text s => s | Strong s => s end.

Definition rendered_text (r : option (list node)) : jsstring :=
  match r with
  | None => []
  | Some nodes => flat_map node_text nodes
  end.

(** *** Component state *)

Record image := { file : N; preview : jsstring }.

(** The form cells of [App]. *)
Record Form := {
  propertyType : jsstring;
  listingPurpose : jsstring;
  bedrooms : jsstring;
  bathrooms : jsstring;
  sqft : jsstring;
  price : jsstring;
  address : jsstring;
  selectedFeatures : list jsstring;
  otherFeatures : jsstring;
  additionalNotes : jsstring;
  images : list image
}.

(** The output cells of [App], with the form. *)
Record State := {
  form : Form;
  description : jsstring;
  socialCaption : jsstring;
  isLoading : bool;
  isRegeneratingDescription : bool;
  isRegeneratingSocial : bool;
  error : jsstring;
  copiedDescription : bool;
  copiedSocial : bool
}.

Definition setDescription (v : jsstring) (st : State) : State :=
  {| form := form st; description := v; socialCaption := socialCaption st;
     isLoading := isLoading st;
     isRegeneratingDescription := isRegeneratingDescription st;
     isRegeneratingSocial := isRegeneratingSocial st; error := error st;
     copiedDescription := copiedDescription st;
     copiedSocial := copiedSocial st |}.

Definition setSocialCaption (v : jsstring) (st : State) : State :=
  {| form := form st; description := description st; socialCaption := v;
     isLoading := isLoading st;
     isRegeneratingDescription := isRegeneratingDescription st;
     isRegeneratingSocial := isRegeneratingSocial st; error := error st;
     copiedDescription := copiedDescription st;
     copiedSocial := copiedSocial st |}.

Definition setIsRegeneratingDescription (v : bool) (st : State) : State :=
  {| form := form st; description := description st;
     socialCaption := socialCaption st; isLoading := isLoading st;
     isRegeneratingDescription := v;
     isRegeneratingSocial := isRegeneratingSocial st; error := error st;
     copiedDescription := copiedDescription st;
     copiedSocial := copiedSocial st |}.

Definition setIsRegeneratingSocial (v : bool) (st : State) : State :=
  {| form := form st; description := description st;
     socialCaption := socialCaption st; isLoading := isLoading st;
     isRegeneratingDescription := isRegeneratingDescription st;
     isRegeneratingSocial := v; error := error st;
     copiedDescription := copiedDescription st;
     copiedSocial := copiedSocial st |}.

Definition setError (v : jsstring) (st : State) : State :=
  {| form := form st; description := description st;
     socialCaption := socialCaption st; isLoading := isLoading st;
     isRegeneratingDescription := isRegeneratingDescription st;
     isRegeneratingSocial := isRegeneratingSocial st; error := v;
     copiedDescription := copiedDescription st;
     copiedSocial := copiedSocial st |}.

(** *** The request *)

(** A value appended to the [FormData]: a string, the array given to
    [JSON.stringify], or a file. *)
Inductive value :=
| text (s : jsstring)
| json_array (items : list jsstring)
| blob (f : N).

Definition FormData := list (jsstring * value).

Definition buildFormData (f : Form) : FormData :=
  [(js "property_type", text (propertyType f));
   (js "listing_purpose", text (listingPurpose f));
   (js "bedrooms", text (bedrooms f));
   (js "bathrooms", text (bathrooms f));
   (js "sqft", text (sqft f));
   (js "price", text (price f));
   (js "address", text (address f));
   (js "features",
    json_array (selectedFeatures f ++
                (if JS.truthy (otherFeatures f) then [otherFeatures f]
                 else [])));
   (js "additional_notes", text (additionalNotes f))]
  ++ map (fun img => (js "images", blob (file img))) (images f).

(** A [POST] to [/regenerate-section] with the form data. *)
Definition regenerate_request (section : jsstring) (st : State) : FormData :=
  buildFormData (form st) ++ [(js "section", text section)].

(** The response to it: [response.ok], and what [response.json()] gives,
    a rejection message or [data.content]. *)
Record response := {
  ok : bool;
  json : jsstring + jsstring
}.

Inductive fetched :=
| Rejected (message : jsstring)
| Responded (r : response).

Definition network := FormData -> fetched.

(** The [try] block of the regenerate handlers: the new content, or the
    message of the error thrown. *)
Definition regenerate (net : network) (req : FormData)
  : jsstring + jsstring :=
  match net req with
  | Rejected m => inl m
  | Responded r =>
      if negb (ok r) then inl (js "Failed to regenerate") else json r
  end.

Definition handleRegenerateDescription (net : network) (st : State)
  : State :=
  let st := setIsRegeneratingDescription true st in
  let st :=
    match regenerate net (regenerate_request (js "description") st) with
    | inr data_content => setDescription data_content st
    | inl m => setError m st
    end in
  setIsRegeneratingDescription false st.

Definition handleRegenerateSocial (net : network) (st : State) : State :=
  let st := setIsRegeneratingSocial true st in
  let st :=
    match regenerate net (regenerate_request (js "social") st) with
    | inr data_content => setSocialCaption data_content st
    | inl m => setError m st
    end in
  setIsRegeneratingSocial false st.

(** The request fails: [fetch] rejects, or the response is not ok. *)
Definition fails (net : network) (req : FormData) : Prop :=
  match net req with
  | Rejected _ => True
  | Responded r => ok r = false
  end.

(** The text the property expects the rendering to show: [text] with the
    two stars at each end of every match of the pattern removed and all
    other characters as they are.  Written after the property, to
    compare [renderMarkdown] with. *)
Equations? unmarked (s : jsstring) : jsstring by wf (List.length s) lt :=
  unmarked [] := [];
  unmarked (c :: s') with inspect (match_bold (c :: s')) := {
    | exist _ (Some (m, rest)) H => JS.slice_between 2 2 m ++ unmarked rest;
    | exist _ None _ => c :: unmarked s' }.
Proof. apply match_bold_shorter in H. exact H. Qed.

(** The parts between the matches: every other part, from the first. *)
Fixpoint unmatched (parts : list jsstring) : list jsstring :=
  match parts with
  | p :: _ :: rest => p :: unmatched rest
  | _ => parts
  end.

(** The characters shown for a list of parts. *)
Definition shown_text (parts : list jsstring) : jsstring :=
  flat_map node_text (map render_part parts).

Definition failure_message (net : network) (req : FormData) : jsstring :=
  match net req with
  | Rejected m => m
  | Responded _ => js "Failed to regenerate"
  end.

(** A listing on display. *)
Definition shown : State :=
  {| form := {| propertyType := js "house"; listingPurpose := js "sale";
                bedrooms := js "3"; bathrooms := js "2"; sqft := [];
                price := []; address := []; selectedFeatures := [js "Pool"];
                otherFeatures := []; additionalNotes := []; images := [] |};
     description := js "A **bright** house";
     socialCaption := js "Just listed";
     isLoading := false; isRegeneratingDescription := false;
     isRegeneratingSocial := false; error := [];
     copiedDescription := false; copiedSocial := false |}.

(** *** The form handlers *)

Definition setSelectedFeatures (v : list jsstring) (f : Form) : Form :=
  {| propertyType := propertyType f; listingPurpose := listingPurpose f;
     bedrooms := bedrooms f; bathrooms := bathrooms f; sqft := sqft f;
     price := price f; address := address f; selectedFeatures := v;
     otherFeatures := otherFeatures f; additionalNotes := additionalNotes f;
     images := images f |}.

Definition setImages (v : list image) (f : Form) : Form :=
  {| propertyType := propertyType f; listingPurpose := listingPurpose f;
     bedrooms := bedrooms f; bathrooms := bathrooms f; sqft := sqft f;
     price := price f; address := address f;
     selectedFeatures := selectedFeatures f;
     otherFeatures := otherFeatures f; additionalNotes := additionalNotes f;
     images := v |}.

Definition setForm (f : Form) (st : State) : State :=
  {| form := f; description := description st;
     socialCaption := socialCaption st; isLoading := isLoading st;
     isRegeneratingDescription := isRegeneratingDescription st;
     isRegeneratingSocial := isRegeneratingSocial st; error := error st;
     copiedDescription := copiedDescription st;
     copiedSocial := copiedSocial st |}.

Definition setIsLoading (v : bool) (st : State) : State :=
  {| form := form st; description := description st;
     socialCaption := socialCaption st; isLoading := v;
     isRegeneratingDescription := isRegeneratingDescription st;
     isRegeneratingSocial := isRegeneratingSocial st; error := error st;
     copiedDescription := copiedDescription st;
     copiedSocial := copiedSocial st |}.

(** [prev.includes(feature)] on an array of strings. *)
Definition includes (prev : list jsstring) (feature : jsstring) : bool :=
  existsb (JS.eqb feature) prev.

(** The updater of [toggleFeature]: the feature is filtered out when the
    array includes it, appended otherwise. *)
Definition toggle (feature : jsstring) (prev : list jsstring)
  : list jsstring :=
  if includes prev feature
  then filter (fun f => negb (JS.eqb f feature)) prev
  else prev ++ [feature].

Definition toggleFeature (feature : jsstring) (st : State) : State :=
  setForm (setSelectedFeatures
             (toggle feature (selectedFeatures (form st))) (form st)) st.

(** [a.slice(0, 5 - n)] for an array [a] and a length [n]: the first
    [5 - n] elements, and when [5 - n] is negative all but the last
    [n - 5]. *)
Definition slice_to_room {A : Type} (n : nat) (a : list A) : list A :=
  if n <=? 5 then firstn (5 - n) a
  else firstn (List.length a - (n - 5)) a.

(** [onDrop]: the accepted files that fit are given a preview URL and
    appended, and the array is cut to five. *)
Definition onDrop (createObjectURL : N -> jsstring) (acceptedFiles : list N)
    (st : State) : State :=
  let newImages :=
    map (fun f => {| file := f; preview := createObjectURL f |})
      (slice_to_room (List.length (images (form st))) acceptedFiles) in
  setForm (setImages (firstn 5 (images (form st) ++ newImages)) (form st)) st.

(** [a.splice(index, 1)]: the array without the element at [index], the
    array itself when there is none. *)
Fixpoint splice_one {A : Type} (index : nat) (a : list A) : list A :=
  match a, index with
  | [], _ => []
  | _ :: a', O => a'
  | x :: a', S i => x :: splice_one i a'
  end.

(** The updater of [removeImage]: the URL revoked and the new array;
    [None] when there is no image at [index], where reading [.preview]
    throws. *)
Definition removeImage (index : nat) (prev : list image)
  : option (jsstring * list image) :=
  match nth_error prev index with
  | None => None
  | Some img => Some (preview img, splice_one index prev)
  end.

(** *** [handleGenerate] *)

(** The body of a response to [/generate-listing], parsed: the fields the
    component reads.  A [detail] that is not a string is not modelled. *)
Record listing_data := {
  detail : option jsstring;
  data_description : jsstring;
  data_social_caption : jsstring
}.

(** The response: its status and what [response.json()] gives, a
    rejection message or the parsed body. *)
Record generated := {
  status : N;
  body : jsstring + listing_data
}.

Definition generated_ok (r : generated) : bool :=
  (200 <=? status r)%N && (status r <=? 299)%N.

Inductive generate_fetched :=
| GenerateRejected (message : jsstring)
| GenerateResponded (r : generated).

Definition generate_network := FormData -> generate_fetched.

(** [errorData.detail || `HTTP error! status: ${response.status}`], where
    [errorData] is the parsed body or the empty object. *)
Definition error_detail (r : generated) : jsstring :=
  let http := js "HTTP error! status: " ++ JS.of_number (status r) in
  match body r with
  | inr d =>
      match detail d with
      | Some s => if JS.truthy s then s else http
      | None => http
      end
  | inl _ => http
  end.

Definition handleGenerate (net : generate_network) (st : State) : State :=
  let st := setError [] st in
  let st := setIsLoading true st in
  let st := setDescription [] st in
  let st := setSocialCaption [] st in
  let st :=
    match net (buildFormData (form st)) with
    | GenerateRejected m => setError m st
    | GenerateResponded r =>
        if negb (generated_ok r) then setError (error_detail r) st
        else match body r with
             | inl m => setError m st
             | inr d =>
                 setSocialCaption (data_social_caption d)
                   (setDescription (data_description d) st)
             end
    end in
  setIsLoading false st.


(** *** What the output column shows *)

(** [description || socialCaption]. *)
Definition hasOutput (st : State) : bool :=
  JS.truthy (description st) || JS.truthy (socialCaption st).

Definition shows_error (st : State) : bool := JS.truthy (error st).

Definition shows_empty_state (st : State) : bool :=
  negb (hasOutput st) && negb (isLoading st) && negb (JS.truthy (error st)).

Definition shows_loading (st : State) : bool := isLoading st.

Definition shows_output (st : State) : bool :=
  hasOutput st && negb (isLoading st).

(** The text has no star. *)
Definition no_star (s : jsstring) : bool :=
  forallb (fun c => negb (N.eqb c STAR)) s.

End Listing.

(** ** More inputs *)

(** A network that is down. *)
Definition offline : Writing.network :=
  fun _ => Writing.Rejected (js "Failed to fetch").

(** A response with status 404 and a body that would stream text. *)
Definition not_found : Writing.response :=
  {| Writing.status := 404; Writing.json := inl [];
     Writing.body :=
       Some {| Writing.values := [bytes "data: ignored" ++ NL];
               Writing.failure := None |} |}.

(** A response with a JSON body. *)
Definition generated_text : Writing.response :=
  {| Writing.status := 200; Writing.json := inr (js "A post.");
     Writing.body :=
       Some {| Writing.values := []; Writing.failure := None |} |}.

(** A form in non-streaming mode showing the error of an earlier
    request. *)
Definition failed_form : Writing.State :=
  Writing.setError (js "Error: earlier") regular_form.

(** A form with four images. *)
Definition four_images : Listing.State :=
  Listing.setForm
    (Listing.setImages
       (map (fun f => {| Listing.file := f; Listing.preview := js "blob:" |})
          [1; 2; 3; 4]%N)
       (Listing.form Listing.shown))
    Listing.shown.


(** A server that answers with a listing. *)
Definition listing_reply : Listing.generated :=
  {| Listing.status := 200;
     Listing.body :=
       inr {| Listing.detail := None;
              Listing.data_description := js "**Bright** home";
              Listing.data_social_caption := js "New!" |} |}.

(** The request asks for the caption: its [section] field is "social". *)
Definition asks_for_social (req : Listing.FormData) : bool :=
  existsb (fun e => JS.eqb (fst e) (js "section")
                    && match snd e with
                       | Listing.text s => JS.eqb s (js "social")
                       | _ => false
                       end) req.

(** A server that is down for the description and regenerates the
    caption. *)
Definition description_down : Listing.network :=
  fun req =>
    if asks_for_social req
    then Listing.Responded
           {| Listing.ok := true; Listing.json := inr (js "A new caption") |}
    else Listing.Rejected (js "Failed to fetch").

(** A server that regenerates the description and answers 500 for the
    caption. *)
Definition social_down : Listing.network :=
  fun req =>
    if asks_for_social req
    then Listing.Responded {| Listing.ok := false; Listing.json := inl [] |}
    else Listing.Responded
           {| Listing.ok := true;
              Listing.json := inr (js "A new description") |}.

(** A listing on display under the error of an earlier request. *)
Definition shown_with_error : Listing.State :=
  Listing.setError (js "Failed to regenerate") Listing.shown.

(** * Properties *)

(** ** The decoder *)

Module DecoderFacts.

Import TextDecoder.
Local Open Scope N_scope.

Lemma decode_all_raw input :
  decode_all input = flat_map utf16 (fst (serialize false (raw input))).
Proof.
  unfold decode_all, decode, raw. simpl.
  destruct (run utf8_initial input) as [out st]. simpl.
  destruct (serialize false (out ++ flush st)). reflexivity.
Qed.

(** A call without [stream] leaves the decoder as a fresh one behaves:
    the next call starts from [new] whatever came before. *)
Lemma decode_resets d input :
  do_not_flush d = false ->
  fst (decode false d input) = decode_all input
  /\ do_not_flush (snd (decode false d input)) = false.
Proof.
  intros H. unfold decode_all, decode. rewrite H. simpl.
  destruct (run utf8_initial input) as [out st].
  destruct (serialize false (out ++ flush st)). simpl. auto.
Qed.

Lemma run_app st a b :
  run st (a ++ b) =
  let (o1, st1) := run st a in
  let (o2, st2) := run st1 b in
  (o1 ++ o2, st2).
Proof.
  revert st. induction a as [|x a IH]; intros st; simpl.
  - destruct (run st b). reflexivity.
  - destruct (handler st (Byte.to_N x)) as [o st'].
    rewrite IH. destruct (run st' a) as [o1 st1].
    destruct (run st1 b) as [o2 st2]. rewrite app_assoc. reflexivity.
Qed.

(** *** No ASCII byte is taken as a continuation byte *)

Lemma bounded_initial : bounded utf8_initial.
Proof. unfold bounded. simpl. lia. Qed.

Lemma lead_bounded b : bounded (snd (lead b)).
Proof.
  unfold lead, bounded.
  repeat match goal with
         | |- context [if ?c then _ else _] => destruct c
         end; simpl; lia.
Qed.

Lemma handler_bounded st b : bounded (snd (handler st b)).
Proof.
  unfold handler.
  destruct (bytes_needed st =? 0); [apply lead_bounded|].
  destruct (in_range _ _ b).
  - destruct (_ =? _); [apply bounded_initial|].
    unfold bounded. simpl. lia.
  - pose proof (lead_bounded b) as H. destruct (lead b). exact H.
Qed.

Lemma run_bounded input : forall st,
  bounded st -> bounded (snd (run st input)).
Proof.
  induction input as [|x input IH]; intros st H; simpl; [exact H|].
  pose proof (handler_bounded st (Byte.to_N x)) as Hh.
  destruct (handler st (Byte.to_N x)) as [o st']. simpl in Hh.
  specialize (IH st' Hh). destruct (run st' input). exact IH.
Qed.

(** A line feed always comes out as the last scalar value and leaves no
    byte pending. *)
Lemma handler_line_feed st :
  bounded st ->
  exists out, handler st 10 = (out ++ [10], utf8_initial).
Proof.
  intros H. unfold handler.
  destruct (bytes_needed st =? 0).
  - exists []. reflexivity.
  - assert (E : in_range (lower_boundary st) (upper_boundary st) 10 = false).
    { unfold in_range, bounded in *.
      destruct (N.leb_spec (lower_boundary st) 10); [lia|reflexivity]. }
    rewrite E. exists [REPLACEMENT]. reflexivity.
Qed.

Lemma run_line_feed input b :
  Byte.to_N b = 10 ->
  exists out, run utf8_initial (input ++ [b]) = (out ++ [10], utf8_initial).
Proof.
  intros Hb. rewrite run_app.
  pose proof (run_bounded input _ bounded_initial) as H.
  destruct (run utf8_initial input) as [o1 st1]. simpl in H.
  simpl. destruct (handler_line_feed _ H) as [o E].
  rewrite Hb, E.
  exists (o1 ++ o). rewrite app_nil_r, app_assoc. reflexivity.
Qed.

(** *** Only the bytes EF BB BF decode to a leading U+FEFF *)

Lemma lor_shift6 a b :
  N.lor (N.shiftl a 6) (N.land b 0x3F) = a * 64 + b mod 64.
Proof.
  assert (H : N.land (N.shiftl a 6) (N.land b 0x3F) = 0).
  { apply N.bits_inj. intro n. rewrite !N.land_spec, N.bits_0.
    change 0x3F with (N.ones 6).
    destruct (N.lt_ge_cases n 6) as [L|L].
    - rewrite N.shiftl_spec_low by assumption. reflexivity.
    - rewrite N.ones_spec_high by assumption.
      rewrite !andb_false_r. reflexivity. }
  rewrite <- N.lxor_lor by assumption.
  rewrite <- N.add_nocarry_lxor by assumption.
  rewrite N.shiftl_mul_pow2. change 0x3F with (N.ones 6).
  rewrite N.land_ones. reflexivity.
Qed.

Lemma land_ones5 n : N.land n 0x1F = n mod 32.
Proof. change 0x1F with (N.ones 5). apply N.land_ones. Qed.

Lemma land_ones4 n : N.land n 0xF = n mod 16.
Proof. change 0xF with (N.ones 4). apply N.land_ones. Qed.

Lemma land_ones3 n : N.land n 0x7 = n mod 8.
Proof. change 0x7 with (N.ones 3). apply N.land_ones. Qed.

Lemma mod_split n k :
  k <> 0 -> exists q r, n mod k = r /\ n = k * q + r /\ r < k.
Proof.
  intros H. exists (n / k), (n mod k).
  repeat split; [apply N.div_mod; exact H|apply N.mod_lt; exact H].
Qed.

Lemma in_range_spec lo hi b :
  in_range lo hi b = true <-> lo <= b <= hi.
Proof.
  unfold in_range. rewrite andb_true_iff, !N.leb_le. tauto.
Qed.

Lemma some_eq (a b : N) : Some a = Some b -> a = b.
Proof. congruence. Qed.

(** One continuation byte for a pending sequence. *)
Lemma handler_pending st b :
  bytes_needed st <> 0 ->
  handler st b =
  if in_range (lower_boundary st) (upper_boundary st) b then
    let cp := code_point st * 64 + b mod 64 in
    if bytes_seen st + 1 =? bytes_needed st then ([cp], utf8_initial)
    else ([], {| code_point := cp; bytes_seen := bytes_seen st + 1;
                 bytes_needed := bytes_needed st;
                 lower_boundary := 0x80; upper_boundary := 0xBF |})
  else (REPLACEMENT :: fst (lead b), snd (lead b)).
Proof.
  intros H. unfold handler.
  destruct (N.eqb_spec (bytes_needed st) 0) as [E|_]; [contradiction|].
  rewrite lor_shift6. destruct (lead b). reflexivity.
Qed.

Lemma first_out_cons st b input :
  first_out st (b :: input) =
  match fst (handler st (Byte.to_N b)) with
  | c :: _ => Some c
  | [] => first_out (snd (handler st (Byte.to_N b))) input
  end.
Proof.
  unfold first_out. simpl.
  destruct (handler st (Byte.to_N b)) as [o st']. simpl.
  destruct (run st' input) as [o' st'']. simpl.
  destruct o; reflexivity.
Qed.

Lemma first_out_nil st :
  first_out st [] = hd_error (flush st).
Proof. reflexivity. Qed.

Lemma off_bom_first st input :
  off_bom st -> first_out st input <> Some BOM.
Proof.
  revert st. induction input as [|b input IH]; intros st H.
  - rewrite first_out_nil. destruct H as [H _]. unfold flush.
    destruct (N.eqb_spec (bytes_needed st) 0); [contradiction|].
    simpl. discriminate.
  - rewrite first_out_cons.
    destruct H as (Hn & Hs & Hlo & Hhi & Hk). cbv zeta in Hk.
    rewrite handler_pending by exact Hn.
    destruct (in_range _ _ _) eqn:R.
    + apply in_range_spec in R.
      destruct (mod_split (Byte.to_N b) 64) as (q & r & -> & E & B); [lia|].
      cbv zeta.
      destruct (N.eqb_spec (bytes_seen st + 1) (bytes_needed st)) as [L|L].
      * simpl. intros [= F]. unfold BOM in F.
        replace (bytes_needed st - bytes_seen st) with 1 in Hk by lia.
        change (64 ^ 1) with 64 in Hk. lia.
      * simpl. apply IH. unfold off_bom. cbv zeta. simpl.
        repeat split; try lia.
        assert (K : bytes_needed st - bytes_seen st = 2 \/
                    bytes_needed st - bytes_seen st = 3) by lia.
        destruct K as [K|K]; rewrite K in Hk.
        -- replace (bytes_needed st - (bytes_seen st + 1)) with 1 by lia.
           change (64 ^ 2) with 4096 in Hk. change (64 ^ 1) with 64.
           lia.
        -- replace (bytes_needed st - (bytes_seen st + 1)) with 2 by lia.
           change (64 ^ 3) with 262144 in Hk. change (64 ^ 2) with 4096.
           lia.
    + simpl. discriminate.
Qed.

(** After the bytes EF BB, only BF gives U+FEFF. *)
Lemma after_ef_bb st b input :
  bytes_needed st = 2 -> bytes_seen st = 1 -> code_point st = 1019 ->
  lower_boundary st = 0x80 -> upper_boundary st = 0xBF ->
  first_out st (b :: input) = Some BOM -> Byte.to_N b = 0xBF.
Proof.
  intros Hn Hs Hc Hlo Hhi. rewrite first_out_cons.
  rewrite handler_pending by lia.
  destruct (in_range _ _ _) eqn:R.
  - apply in_range_spec in R. rewrite Hlo, Hhi in R.
    destruct (mod_split (Byte.to_N b) 64) as (q & r & -> & E & B); [lia|].
    cbv zeta. rewrite Hn, Hs, Hc. change (1 + 1 =? 2) with true.
    cbn [fst]. unfold BOM. intros F. apply some_eq in F. lia.
  - simpl. discriminate.
Qed.

(** After the byte EF, only BB BF gives U+FEFF. *)
Lemma after_ef st b input :
  bytes_needed st = 2 -> bytes_seen st = 0 -> code_point st = 15 ->
  lower_boundary st = 0x80 -> upper_boundary st = 0xBF ->
  first_out st (b :: input) = Some BOM ->
  Byte.to_N b = 0xBB /\
  exists b' input', input = b' :: input' /\ Byte.to_N b' = 0xBF.
Proof.
  intros Hn Hs Hc Hlo Hhi. rewrite first_out_cons.
  rewrite handler_pending by lia.
  destruct (in_range _ _ _) eqn:R.
  - apply in_range_spec in R. rewrite Hlo, Hhi in R.
    destruct (mod_split (Byte.to_N b) 64) as (q & r & -> & E & B); [lia|].
    cbv zeta. rewrite Hn, Hs, Hc. change (0 + 1 =? 2) with false.
    cbn [fst snd].
    destruct (N.eq_dec r 59) as [->|Hr].
    + intros F. split; [lia|].
      destruct input as [|b' input'].
      * rewrite first_out_nil in F. discriminate.
      * exists b', input'. split; [reflexivity|].
        revert F. apply after_ef_bb; reflexivity.
    + intros F. exfalso. revert F. apply off_bom_first.
      unfold off_bom. cbn [bytes_needed bytes_seen code_point
                           lower_boundary upper_boundary].
      change (2 - (0 + 1)) with 1. change (64 ^ 1) with 64.
      repeat split; try lia.
  - simpl. discriminate.
Qed.

Lemma lead_first b input :
  first_out utf8_initial (b :: input) = Some BOM ->
  Byte.to_N b = 0xEF /\
  lead (Byte.to_N b) =
  ([], {| code_point := 15; bytes_seen := 0; bytes_needed := 2;
          lower_boundary := 0x80; upper_boundary := 0xBF |}).
Proof.
  rewrite first_out_cons.
  change (handler utf8_initial (Byte.to_N b)) with (lead (Byte.to_N b)).
  pose proof (Byte.to_N_bounded b) as Hb.
  unfold lead.
  destruct (N.leb_spec (Byte.to_N b) 0x7F) as [L|L].
  { simpl. unfold BOM. intros [= F]. lia. }
  destruct (in_range 0xC2 0xDF _) eqn:R2.
  { simpl. intros F. exfalso. revert F. apply off_bom_first.
    unfold off_bom. simpl. rewrite land_ones5.
    destruct (mod_split (Byte.to_N b) 32) as (q & r & -> & E & B); [lia|].
    repeat split; lia. }
  destruct (in_range 0xE0 0xEF _) eqn:R3.
  { apply in_range_spec in R3. simpl. rewrite land_ones4.
    destruct (mod_split (Byte.to_N b) 16) as (q & r & -> & E & B); [lia|].
    destruct (N.eq_dec (Byte.to_N b) 0xEF) as [Eb|Nb].
    - intros _. split; [exact Eb|]. rewrite Eb. simpl.
      replace r with 15 by lia. reflexivity.
    - intros F. exfalso. revert F. apply off_bom_first.
      unfold off_bom. simpl.
      destruct (N.eqb_spec (Byte.to_N b) 0xE0),
               (N.eqb_spec (Byte.to_N b) 0xED);
        repeat split; lia. }
  destruct (in_range 0xF0 0xF4 _) eqn:R4.
  { apply in_range_spec in R4. simpl. rewrite land_ones3.
    destruct (mod_split (Byte.to_N b) 8) as (q & r & -> & E & B); [lia|].
    intros F. exfalso. revert F. apply off_bom_first.
    unfold off_bom. simpl.
    destruct (N.eqb_spec (Byte.to_N b) 0xF0),
             (N.eqb_spec (Byte.to_N b) 0xF4);
      repeat split; lia. }
  simpl. discriminate.
Qed.

Lemma first_out_bom c :
  first_out utf8_initial c = Some BOM -> starts_with_bom c = true.
Proof.
  destruct c as [|b1 rest]; [discriminate|].
  intros F. destruct (lead_first _ _ F) as [E1 EL].
  rewrite first_out_cons in F.
  change (handler utf8_initial (Byte.to_N b1))
    with (lead (Byte.to_N b1)) in F.
  rewrite EL in F. simpl in F.
  destruct rest as [|b2 rest]; [discriminate|].
  apply after_ef in F; try reflexivity.
  destruct F as (E2 & b3 & rest' & -> & E3).
  simpl. rewrite E1, E2, E3. reflexivity.
Qed.

End DecoderFacts.

(** ** The streaming consumer *)

Module ConsumerFacts.

Import Writing TextDecoder DecoderFacts.

(** *** Lines *)

Lemma split_lines_cons s :
  exists l ls, JS.split_lines s = l :: ls.
Proof.
  destruct s as [|c s]; simpl; [eauto|].
  destruct (N.eqb c JS.LF); [eauto|].
  destruct (JS.split_lines s); eauto.
Qed.

(** Splitting at a line feed splits the list of lines. *)
Lemma split_lines_app a b :
  JS.split_lines (a ++ JS.LF :: b) = JS.split_lines a ++ JS.split_lines b.
Proof.
  induction a as [|c a IH]; simpl.
  - reflexivity.
  - rewrite IH. destruct (N.eqb c JS.LF); [reflexivity|].
    destruct (split_lines_cons a) as (l & ls & ->). reflexivity.
Qed.

Lemma for_lines_app a b st :
  for_lines (a ++ b) st =
  match for_lines a st with
  | (st', None) => for_lines b st'
  | thrown => thrown
  end.
Proof.
  revert st. induction a as [|l a IH]; intros st; simpl; [reflexivity|].
  destruct (for_line l st) as [st' [m|]]; [reflexivity|apply IH].
Qed.

(** A blank line is skipped. *)
Lemma for_line_blank st : for_line [] st = (st, None).
Proof. reflexivity. Qed.

(** *** The loop, chunk by chunk *)

(** The decoder kept across the reads starts every call afresh: the loop
    handles the lines of each chunk decoded on its own. *)
Lemma read_loop_lines cs : forall d last st,
  TextDecoder.do_not_flush d = false ->
  outcome (read_loop d cs last st) =
  match for_lines (lines_of cs) st with
  | (st', None) => (st', last)
  | thrown => thrown
  end.
Proof.
  induction cs as [|value cs IH]; intros d last st Hd; simpl.
  - reflexivity.
  - destruct (DecoderFacts.decode_resets d value Hd) as [E1 E2].
    destruct (TextDecoder.decode false d value) as [chunk d'].
    simpl in E1, E2. subst chunk. rewrite for_lines_app.
    destruct (for_lines _ st) as [st' [m|]]; [reflexivity|].
    specialize (IH d' last st' E2).
    destruct (read_loop d' cs last st') as [[st'' n] c].
    exact IH.
Qed.

(** The number of reads: one for each chunk handled, one more for the end
    of the stream unless a line threw. *)
Lemma read_loop_reads cs : forall d last st,
  snd (fst (read_loop d cs last st)) <= S (List.length cs).
Proof.
  induction cs as [|value cs IH]; intros d last st; simpl; [lia|].
  destruct (TextDecoder.decode false d value) as [chunk d'].
  destruct (for_lines _ st) as [st' [m|]]; simpl; [lia|].
  specialize (IH d' last st').
  destruct (read_loop d' cs last st') as [[st'' n] c]. simpl in *. lia.
Qed.

(** *** Chunks that end on a line end *)

Lemma serialize_app l1 l2 :
  l1 <> [] ->
  fst (serialize false (l1 ++ l2)) = fst (serialize false l1) ++ l2.
Proof.
  destruct l1 as [|c l1]; [contradiction|]. intros _. simpl.
  destruct (N.eqb c BOM); reflexivity.
Qed.

Lemma serialize_plain l :
  hd_error l <> Some BOM -> fst (serialize false l) = l.
Proof.
  destruct l as [|c l]; simpl; [reflexivity|].
  destruct (N.eqb_spec c BOM) as [->|_]; [|reflexivity].
  intros H. contradiction H. reflexivity.
Qed.

Lemma raw_plain c :
  starts_with_bom c = false -> fst (serialize false (raw c)) = raw c.
Proof.
  intros H. apply serialize_plain. intros F.
  apply first_out_bom in F. congruence.
Qed.

Lemma ends_with_line_feed_inv c :
  ends_with_line_feed c = true ->
  c = [] \/ exists c' b, c = c' ++ [b] /\ Byte.to_N b = 10%N.
Proof.
  unfold ends_with_line_feed. intros H.
  destruct (rev c) as [|b r] eqn:E.
  - left. apply (f_equal (@rev byte)) in E. rewrite rev_involutive in E.
    exact E.
  - right. exists (rev r), b. split; [|apply N.eqb_eq; exact H].
    apply (f_equal (@rev byte)) in E. rewrite rev_involutive in E.
    exact E.
Qed.

Lemma raw_line_end c b rest :
  Byte.to_N b = 10%N ->
  exists o, raw (c ++ [b]) = o ++ [10%N]
            /\ raw ((c ++ [b]) ++ rest) = (o ++ [10%N]) ++ raw rest.
Proof.
  intros Hb. destruct (run_line_feed c b Hb) as [o E]. exists o.
  unfold raw. rewrite (run_app utf8_initial (c ++ [b]) rest), E. simpl.
  destruct (run utf8_initial rest) as [o2 st2]. simpl.
  rewrite app_nil_r, app_assoc. split; reflexivity.
Qed.

Lemma decode_all_line_end c b rest :
  Byte.to_N b = 10%N -> starts_with_bom rest = false ->
  exists t, decode_all (c ++ [b]) = t ++ [JS.LF]
            /\ decode_all ((c ++ [b]) ++ rest)
               = t ++ JS.LF :: decode_all rest.
Proof.
  intros Hb Hr. destruct (raw_line_end c b rest Hb) as (o & E1 & E2).
  rewrite !decode_all_raw, E1, E2, (raw_plain rest Hr).
  rewrite (serialize_app (o ++ [10%N]) (raw rest))
    by (destruct o; simpl; discriminate).
  assert (S : exists s, fst (serialize false (o ++ [10%N])) = s ++ [10%N]).
  { destruct o as [|x o]; simpl.
    - exists []. reflexivity.
    - destruct (N.eqb x BOM); [exists o|exists (x :: o)]; reflexivity. }
  destruct S as [s ->]. exists (flat_map utf16 s).
  rewrite !flat_map_app, <- app_assoc. split; reflexivity.
Qed.

Lemma aligned_lines c rest st :
  ends_with_line_feed c = true -> starts_with_bom rest = false ->
  for_lines (JS.split_lines (decode_all (c ++ rest))) st =
  for_lines (JS.split_lines (decode_all c)
             ++ JS.split_lines (decode_all rest)) st.
Proof.
  intros Hc Hr.
  destruct (ends_with_line_feed_inv c Hc) as [->|(c' & b & -> & Hb)].
  - reflexivity.
  - destruct (decode_all_line_end c' b rest Hb Hr) as (t & -> & ->).
    rewrite !split_lines_app. rewrite <- app_assoc.
    rewrite !for_lines_app.
    destruct (for_lines (JS.split_lines t) st) as [st' [m|]]; reflexivity.
Qed.

Lemma starts_with_bom_line_end c b rest :
  Byte.to_N b = 10%N ->
  starts_with_bom (c ++ [b]) = false ->
  starts_with_bom ((c ++ [b]) ++ rest) = false.
Proof.
  intros Hb. destruct c as [|b1 [|b2 [|b3 c]]]; simpl.
  - intros _. destruct rest as [|x2 [|x3 rest]]; try reflexivity.
    rewrite Hb. reflexivity.
  - intros _. destruct rest as [|x3 rest]; try reflexivity.
    rewrite Hb. rewrite andb_false_r. reflexivity.
  - intros _. rewrite Hb. rewrite andb_false_r. reflexivity.
  - intros H. exact H.
Qed.

Lemma concat_no_bom cs :
  forallb ends_with_line_feed cs = true ->
  forallb no_bom cs = true ->
  starts_with_bom (List.concat cs) = false.
Proof.
  induction cs as [|c cs IH]; simpl; [reflexivity|].
  rewrite !andb_true_iff. intros [Hc Hcs] [Nc Ncs].
  destruct (ends_with_line_feed_inv c Hc) as [->|(c' & b & -> & Hb)].
  - apply IH; assumption.
  - apply starts_with_bom_line_end; [exact Hb|].
    unfold no_bom in Nc. apply negb_true_iff in Nc. exact Nc.
Qed.

(** Chunk boundaries on line ends are not seen by the line loop. *)
Lemma aligned_stream cs : forall st,
  forallb ends_with_line_feed cs = true ->
  forallb no_bom (tl cs) = true ->
  for_lines (lines_of cs) st =
  for_lines (JS.split_lines (decode_all (List.concat cs))) st.
Proof.
  induction cs as [|c cs IH]; intros st Ha Hb.
  - reflexivity.
  - simpl in Ha, Hb. apply andb_true_iff in Ha. destruct Ha as [Hc Hcs].
    cbn [List.concat].
    rewrite aligned_lines by (try apply concat_no_bom; assumption).
    unfold lines_of. simpl. rewrite !for_lines_app.
    destruct (for_lines _ st) as [st' [m|]]; [reflexivity|].
    apply IH; [assumption|].
    destruct cs as [|c2 cs]; [reflexivity|]. simpl in Hb |- *.
    apply andb_true_iff in Hb. tauto.
Qed.

End ConsumerFacts.

(** ** A submission *)

Module SubmitFacts.

Import Writing ConsumerFacts.

(** *** The loop touches the buffer only *)

Lemma setContent_same st : setContent (content st) st = st.
Proof. destruct st; reflexivity. Qed.

(** A line is handled the same way in any two states with the same
    buffer: same completion, same new buffer, nothing else changed. *)
Lemma for_line_frame line st st0 :
  for_line line st =
  (setContent
     (content (fst (for_line line (setContent (content st) st0)))) st,
   snd (for_line line (setContent (content st) st0))).
Proof.
  unfold for_line.
  destruct (negb (JS.startsWith line (js "data: "))); simpl.
  { rewrite setContent_same. reflexivity. }
  destruct (JS.eqb _ _); simpl.
  { rewrite setContent_same. reflexivity. }
  destruct (JS.startsWith _ _); simpl.
  { rewrite setContent_same. reflexivity. }
  reflexivity.
Qed.

Lemma for_lines_frame lines : forall st st0,
  for_lines lines st =
  (setContent
     (content (fst (for_lines lines (setContent (content st) st0)))) st,
   snd (for_lines lines (setContent (content st) st0))).
Proof.
  induction lines as [|line lines IH]; intros st st0; simpl.
  - rewrite setContent_same. reflexivity.
  - rewrite (for_line_frame line st st0).
    destruct (for_line line (setContent (content st) st0))
      as [s1 [m|]] eqn:E1; simpl; [reflexivity|].
    rewrite (IH _ st0). simpl.
    assert (Es : setContent (content s1) st0 = s1).
    { rewrite (for_line_frame line _ st0) in E1. simpl in E1.
      injection E1 as E1 _. rewrite <- E1 at 2. simpl.
      rewrite <- E1. reflexivity. }
    rewrite Es. reflexivity.
Qed.

Lemma read_loop_frame cs : forall d last st st0,
  read_loop d cs last st =
  (setContent
     (content
        (fst (fst (read_loop d cs last (setContent (content st) st0)))))
     st,
   snd (fst (read_loop d cs last (setContent (content st) st0))),
   snd (read_loop d cs last (setContent (content st) st0))).
Proof.
  induction cs as [|value cs IH]; intros d last st st0; simpl.
  - rewrite setContent_same. reflexivity.
  - destruct (TextDecoder.decode false d value) as [chunk d'].
    rewrite (for_lines_frame _ st st0).
    destruct (for_lines _ (setContent (content st) st0))
      as [s1 [m|]] eqn:E1; simpl; [reflexivity|].
    rewrite (IH d' last _ st0). simpl.
    assert (Es : setContent (content s1) st0 = s1).
    { rewrite (for_lines_frame _ _ st0) in E1. simpl in E1.
      injection E1 as E1 _. rewrite <- E1 at 2. simpl.
      rewrite <- E1. reflexivity. }
    rewrite Es.
    destruct (read_loop d' cs last s1) as [[s2 n] c]. reflexivity.
Qed.

(** *** A submission in streaming mode, in closed form *)

Lemma handleSubmit_streaming net st r b :
  useStreaming st = true ->
  net (the_request generate_stream st) = Responded r ->
  ok r = true ->
  body r = Some b ->
  handleSubmit net st =
  let '(s, n, c) :=
    read_loop TextDecoder.new (values b) (failure b) (setContent [] st) in
  (setIsLoading false (setError (message_of c) (setContent (content s) st)),
   Fetch (the_request generate_stream st) :: repeat Read n).
Proof.
  intros Hs Hn Hok Hb. unfold handleSubmit. simpl. rewrite Hs.
  unfold generateStreaming.
  change (the_request generate_stream _)
    with (the_request generate_stream st).
  rewrite Hn, Hok, Hb. simpl.
  rewrite (read_loop_frame (values b) TextDecoder.new (failure b) _ st).
  simpl.
  destruct (read_loop TextDecoder.new (values b) (failure b)
              (setContent [] st)) as [[s n] c].
  simpl. destruct c; reflexivity.
Qed.

(** *** A submission in streaming mode to a response without a body *)

Lemma handleSubmit_null_body net st r :
  useStreaming st = true ->
  net (the_request generate_stream st) = Responded r ->
  ok r = true ->
  body r = None ->
  handleSubmit net st =
  (setIsLoading false
     (setContent [] (setError (js "Error: " ++ null_body_message) st)),
   [Fetch (the_request generate_stream st)]).
Proof.
  intros Hs Hn Hok Hb. unfold handleSubmit. simpl. rewrite Hs.
  unfold generateStreaming.
  change (the_request generate_stream _)
    with (the_request generate_stream st).
  rewrite Hn, Hok, Hb. reflexivity.
Qed.

End SubmitFacts.

Import SubmitFacts.

(** ** Frames *)

Module FrameFacts.

Import Writing ConsumerFacts.

Lemma startsWith_nil s : JS.startsWith s [] = true.
Proof. reflexivity. Qed.

Lemma startsWith_cons y s x p :
  JS.startsWith (y :: s) (x :: p) = N.eqb x y && JS.startsWith s p.
Proof. reflexivity. Qed.

Lemma startsWith_app p s : JS.startsWith (p ++ s) p = true.
Proof.
  induction p as [|c p IH]; [reflexivity|].
  simpl app. rewrite startsWith_cons, N.eqb_refl. exact IH.
Qed.

Lemma startsWith_inv p : forall s,
  JS.startsWith s p = true -> exists r, s = p ++ r.
Proof.
  induction p as [|c p IH]; intros s.
  - exists s. reflexivity.
  - destruct s as [|x s]; [discriminate|].
    rewrite startsWith_cons, andb_true_iff, N.eqb_eq. intros [-> H].
    destruct (IH s H) as [r ->]. exists r. reflexivity.
Qed.

(** An error payload is not the end signal. *)
Lemma error_is_not_done payload :
  JS.startsWith payload (js "[ERROR]") = true ->
  JS.eqb payload (js "[DONE]") = false.
Proof.
  intros H. apply startsWith_inv in H. destruct H as [r ->]. reflexivity.
Qed.

(** The body of the line loop on an error frame: it throws the
    payload. *)
Lemma for_line_error payload st :
  JS.startsWith payload (js "[ERROR]") = true ->
  for_line (js "data: " ++ payload) st = (st, Some payload).
Proof.
  intros H. unfold for_line. rewrite startsWith_app. simpl negb. cbv iota.
  change (JS.slice_from 6 (js "data: " ++ payload)) with payload.
  rewrite (error_is_not_done payload H), H. reflexivity.
Qed.

Lemma for_line_completion line st st' :
  snd (for_line line st) = snd (for_line line st').
Proof.
  unfold for_line.
  repeat match goal with
         | |- context [if ?c then _ else _] => destruct c
         end; reflexivity.
Qed.

(** How a list of lines completes does not depend on the state. *)
Lemma for_lines_completion lines : forall st st',
  snd (for_lines lines st) = snd (for_lines lines st').
Proof.
  induction lines as [|line lines IH]; intros st st'; simpl.
  - reflexivity.
  - pose proof (for_line_completion line st st') as E.
    destruct (for_line line st) as [s1 c1].
    destruct (for_line line st') as [s1' c1']. simpl in E. subst c1'.
    destruct c1; [reflexivity|apply IH].
Qed.

Lemma read_loop_fresh cs : forall d1 d2 last st,
  TextDecoder.do_not_flush d1 = false ->
  TextDecoder.do_not_flush d2 = false ->
  read_loop d1 cs last st = read_loop d2 cs last st.
Proof.
  induction cs as [|value cs IH]; intros d1 d2 last st H1 H2; simpl.
  - reflexivity.
  - destruct (DecoderFacts.decode_resets d1 value H1) as [E1 F1].
    destruct (DecoderFacts.decode_resets d2 value H2) as [E2 F2].
    destruct (TextDecoder.decode false d1 value) as [t1 d1'].
    destruct (TextDecoder.decode false d2 value) as [t2 d2'].
    simpl in *. subst t1 t2.
    destruct (for_lines _ st) as [st' [m|]]; [reflexivity|].
    rewrite (IH d1' d2' last st' F1 F2). reflexivity.
Qed.

(** The chunks handled without a throw are read one by one, and the loop
    goes on with the chunks that follow. *)
Lemma read_loop_app cs1 cs2 : forall d last st,
  TextDecoder.do_not_flush d = false ->
  snd (for_lines (lines_of cs1) st) = None ->
  read_loop d (cs1 ++ cs2) last st =
  let '(s, n, c) :=
    read_loop TextDecoder.new cs2 last (fst (for_lines (lines_of cs1) st)) in
  (s, List.length cs1 + n, c).
Proof.
  induction cs1 as [|value cs1 IH]; intros d last st Hd Hn.
  - simpl. rewrite (read_loop_fresh cs2 d TextDecoder.new) by auto.
    destruct (read_loop _ cs2 last st) as [[s n] c]. reflexivity.
  - simpl in Hn |- *. rewrite for_lines_app in Hn.
    destruct (DecoderFacts.decode_resets d value Hd) as [E F].
    destruct (TextDecoder.decode false d value) as [t d'].
    simpl in E, F. subst t. rewrite for_lines_app.
    destruct (for_lines _ st) as [st' [m|]]; [discriminate|].
    rewrite (IH d' last st' F Hn).
    destruct (read_loop _ cs2 last _) as [[s n] c]. reflexivity.
Qed.

Lemma split_lines_one s :
  existsb (N.eqb JS.LF) s = false -> JS.split_lines s = [s].
Proof.
  induction s as [|c s IH]; [reflexivity|].
  cbn [existsb JS.split_lines]. rewrite orb_false_iff. intros [Hc Hs].
  rewrite N.eqb_sym in Hc. rewrite Hc, (IH Hs). reflexivity.
Qed.

Lemma for_line_delta payload st :
  is_delta payload = true ->
  for_line (js "data: " ++ payload) st
  = (setContent (content st ++ payload) st, None).
Proof.
  unfold is_delta. rewrite !andb_true_iff, !negb_true_iff.
  intros [[_ Hd] He]. unfold for_line. rewrite startsWith_app. simpl negb.
  cbv iota. change (JS.slice_from 6 (js "data: " ++ payload)) with payload.
  rewrite Hd, He. reflexivity.
Qed.

Lemma for_line_done payload st :
  is_done payload = true ->
  for_line (js "data: " ++ payload) st = (st, None).
Proof.
  unfold is_done. intros Hd. unfold for_line. rewrite startsWith_app.
  simpl negb. cbv iota.
  change (JS.slice_from 6 (js "data: " ++ payload)) with payload.
  rewrite Hd. reflexivity.
Qed.

Lemma eqb_eq a : forall b, JS.eqb a b = true -> a = b.
Proof.
  induction a as [|x a IH]; intros [|y b]; simpl; try discriminate.
  - reflexivity.
  - rewrite andb_true_iff, N.eqb_eq. intros [-> H]. rewrite (IH b H).
    reflexivity.
Qed.

Lemma is_plain_one_line payload :
  is_plain payload = true -> existsb (N.eqb JS.LF) payload = false.
Proof.
  unfold is_plain, is_delta, is_done. rewrite orb_true_iff.
  intros [H|H].
  - rewrite !andb_true_iff, !negb_true_iff in H. tauto.
  - apply eqb_eq in H. subst. reflexivity.
Qed.

(** A text of frames with text payloads and end signals, handled as one
    chunk: the text payloads are appended in order and the loop
    completes. *)
Lemma frames_yield_payloads payloads : forall st,
  forallb is_plain payloads = true ->
  for_lines (JS.split_lines (flat_map frame payloads)) st
  = (setContent (content st ++ List.concat (filter is_delta payloads)) st,
     None).
Proof.
  induction payloads as [|p ps IH]; intros st H.
  - simpl. rewrite app_nil_r, setContent_same. reflexivity.
  - simpl in H. apply andb_true_iff in H. destruct H as [Hp Hps].
    assert (E : flat_map frame (p :: ps)
                = (js "data: " ++ p)
                  ++ JS.LF :: ([] ++ JS.LF :: flat_map frame ps)).
    { change (flat_map frame (p :: ps)) with (frame p ++ flat_map frame ps).
      unfold frame. rewrite <- !app_assoc. reflexivity. }
    rewrite E, !split_lines_app.
    assert (L : existsb (N.eqb JS.LF) (js "data: " ++ p) = false).
    { rewrite existsb_app, (is_plain_one_line p Hp). reflexivity. }
    rewrite (split_lines_one _ L).
    change (JS.split_lines []) with [@nil N].
    cbn [app for_lines filter].
    destruct (is_delta p) eqn:Dp.
    + rewrite (for_line_delta p st Dp).
      rewrite for_line_blank, (IH _ Hps). simpl. rewrite <- app_assoc.
      reflexivity.
    + unfold is_plain in Hp. rewrite Dp in Hp. simpl in Hp.
      rewrite (for_line_done p st Hp).
      rewrite for_line_blank, (IH _ Hps). reflexivity.
Qed.

End FrameFacts.

Import FrameFacts.

(** ** Events *)

Module EventFacts.

Import Writing ConsumerFacts.

(** The body of the line loop does what the event of the line says. *)
Lemma for_line_event line st :
  for_line line st =
  match event_of line with
  | Some (TextDelta text) => (setContent (content st ++ text) st, None)
  | Some (ErrorSignal message) => (st, Some message)
  | _ => (st, None)
  end.
Proof.
  unfold for_line, event_of, payload_of, classify.
  destruct (JS.startsWith line (js "data: ")); simpl; [|reflexivity].
  destruct (JS.eqb _ _); [reflexivity|].
  destruct (JS.startsWith _ _); reflexivity.
Qed.

(** The line loop appends the text deltas before the first error signal,
    and throws the message of that signal. *)
Lemma for_lines_events lines : forall st,
  for_lines lines st =
  (setContent (content st ++ text_deltas (before_error lines)) st,
   first_error lines).
Proof.
  induction lines as [|line lines IH]; intros st.
  - simpl. rewrite app_nil_r, setContent_same. reflexivity.
  - cbn [for_lines before_error first_error]. rewrite for_line_event.
    destruct (event_of line) as [[text| |message]|] eqn:E.
    + rewrite IH. cbn [text_deltas]. rewrite E. simpl.
      rewrite <- app_assoc. reflexivity.
    + rewrite IH. cbn [text_deltas]. rewrite E. reflexivity.
    + simpl. rewrite app_nil_r, setContent_same. reflexivity.
    + rewrite IH. cbn [text_deltas]. rewrite E. reflexivity.
Qed.

Lemma for_lines_throws lines st :
  snd (for_lines lines st) = first_error lines.
Proof. rewrite for_lines_events. reflexivity. Qed.


Lemma first_error_app a b :
  first_error (a ++ b) =
  match first_error a with
  | Some message => Some message
  | None => first_error b
  end.
Proof.
  induction a as [|line a IH]; [reflexivity|]. simpl.
  destruct (event_of line) as [[text| |message]|]; try exact IH.
  reflexivity.
Qed.

Lemma before_error_app a b :
  before_error (a ++ b) =
  match first_error a with
  | Some _ => before_error a
  | None => a ++ before_error b
  end.
Proof.
  induction a as [|line a IH]; [reflexivity|]. simpl.
  destruct (event_of line) as [[text| |message]|]; try reflexivity;
    rewrite IH; destruct (first_error a); reflexivity.
Qed.

Lemma before_error_all a : first_error a = None -> before_error a = a.
Proof.
  intros H. pose proof (before_error_app a []) as E.
  rewrite H, !app_nil_r in E. exact E.
Qed.

Lemma lines_of_app a b : lines_of (a ++ b) = lines_of a ++ lines_of b.
Proof. apply flat_map_app. Qed.

Lemma lines_of_cons value cs :
  lines_of (value :: cs)
  = JS.split_lines (TextDecoder.decode_all value) ++ lines_of cs.
Proof. reflexivity. Qed.


Lemma error_line_event payload :
  JS.startsWith payload (js "[ERROR]") = true ->
  event_of (js "data: " ++ payload) = Some (ErrorSignal payload).
Proof.
  intros H. unfold event_of, payload_of. rewrite startsWith_app.
  cbv iota. cbn [option_map].
  change (JS.slice_from 6 (js "data: " ++ payload)) with payload.
  unfold classify. rewrite (error_is_not_done payload H), H. reflexivity.
Qed.


(** The state a streaming submission leaves, from the events of the
    stream. *)
Lemma handleSubmit_events net st r b :
  useStreaming st = true ->
  net (the_request generate_stream st) = Responded r ->
  ok r = true ->
  body r = Some b ->
  fst (handleSubmit net st)
  = setIsLoading false
      (setError
         (message_of (completion_of (lines_of (values b)) (failure b)))
         (setContent (text_deltas (before_error (lines_of (values b)))) st)).
Proof.
  intros Hs Hn Hok Hb.
  rewrite (handleSubmit_streaming net st r b Hs Hn Hok Hb).
  pose proof (read_loop_lines (values b) TextDecoder.new (failure b)
                (setContent [] st) eq_refl) as E.
  rewrite for_lines_events in E. unfold completion_of.
  destruct (read_loop TextDecoder.new (values b) (failure b)
              (setContent [] st)) as [[s n] c].
  unfold outcome in E. simpl in E.
  destruct (first_error (lines_of (values b))); injection E as -> ->;
    reflexivity.
Qed.


(** A stream without an error signal is read to its end. *)
Lemma handleSubmit_reads_all net st r b :
  useStreaming st = true ->
  net (the_request generate_stream st) = Responded r ->
  ok r = true ->
  body r = Some b ->
  first_error (lines_of (values b)) = None ->
  snd (handleSubmit net st)
  = Fetch (the_request generate_stream st)
    :: repeat Read (S (List.length (values b))).
Proof.
  intros Hs Hn Hok Hb He.
  rewrite (handleSubmit_streaming net st r b Hs Hn Hok Hb).
  pose proof (read_loop_app (values b) [] TextDecoder.new (failure b)
                (setContent [] st) eq_refl) as E.
  rewrite app_nil_r in E. rewrite E by (rewrite for_lines_throws; exact He).
  simpl. rewrite Nat.add_1_r. reflexivity.
Qed.

End EventFacts.

Import EventFacts.

(** ** Chunk boundaries *)

Lemma same_outcome_same_state net1 net2 st r1 r2 b1 b2 :
  Writing.useStreaming st = true ->
  net1 (Writing.the_request Writing.generate_stream st) = Writing.Responded r1 ->
  net2 (Writing.the_request Writing.generate_stream st) = Writing.Responded r2 ->
  Writing.ok r1 = true -> Writing.ok r2 = true ->
  Writing.body r1 = Some b1 -> Writing.body r2 = Some b2 ->
  Writing.outcome
    (Writing.read_loop TextDecoder.new (Writing.values b1) (Writing.failure b1)
       (Writing.setContent [] st)) =
  Writing.outcome
    (Writing.read_loop TextDecoder.new (Writing.values b2) (Writing.failure b2)
       (Writing.setContent [] st)) ->
  fst (Writing.handleSubmit net1 st) = fst (Writing.handleSubmit net2 st).
Proof.
  intros Hs H1 H2 O1 O2 B1 B2 E.
  rewrite (handleSubmit_streaming net1 st r1 b1 Hs H1 O1 B1).
  rewrite (handleSubmit_streaming net2 st r2 b2 Hs H2 O2 B2).
  destruct (Writing.read_loop _ (Writing.values b1) _ _) as [[s1 n1] c1].
  destruct (Writing.read_loop _ (Writing.values b2) _ _) as [[s2 n2] c2].
  unfold Writing.outcome in E. simpl in E. injection E as -> ->.
  reflexivity.
Qed.

(** C1, as amended: when every chunk is empty or ends with a line feed and
    no chunk after the first begins with a byte-order mark, a submission
    ends in the same state (same accumulated text, same error) as when the
    same bytes arrive in one chunk; and when the bytes of such chunks are
    the frames of N payloads, each a line of text or the end signal, the
    accumulated text is the text payloads in order and the request ends
    completed.  A line cut by a chunk boundary is not put together again:
    for the chunks "data: Hello" and " world\n\ndata: [DONE]\n\n" the
    accumulated text is "Hello", and the request ends completed. *)
Theorem chunking_on_line_ends :
  (forall r cs st,
      forallb TextDecoder.ends_with_line_feed cs = true ->
      forallb TextDecoder.no_bom (tl cs) = true ->
      fst (Writing.handleSubmit (Writing.always (Writing.with_chunks r cs)) st)
      = fst (Writing.handleSubmit
               (Writing.always (Writing.with_chunks r [List.concat cs])) st))
  /\ (forall cs payloads st,
         Writing.useStreaming st = true ->
         forallb TextDecoder.ends_with_line_feed cs = true ->
         forallb TextDecoder.no_bom (tl cs) = true ->
         TextDecoder.decode_all (List.concat cs)
         = flat_map Writing.frame payloads ->
         forallb Writing.is_plain payloads = true ->
         Writing.content
           (fst (Writing.handleSubmit (Writing.always (Writing.streamed cs))
                   st))
         = List.concat (filter Writing.is_delta payloads)
         /\ Writing.Completed
              (fst (Writing.handleSubmit
                      (Writing.always (Writing.streamed cs)) st)))
  /\ Writing.content
       (fst (Writing.submit (Writing.always (Writing.streamed hello_chunks))
               ready))
     = js "Hello"
  /\ Writing.Completed
       (fst (Writing.submit (Writing.always (Writing.streamed hello_chunks))
               ready)).
Proof.
  split; [|split].
  - intros r cs st Ha Hb.
    destruct (Writing.useStreaming st) eqn:Hs.
    2:{ unfold Writing.handleSubmit. simpl. rewrite Hs. reflexivity. }
    destruct (Writing.ok r) eqn:Hok.
    2:{ unfold Writing.handleSubmit. simpl. rewrite Hs.
        unfold Writing.generateStreaming, Writing.always.
        change (Writing.ok (Writing.with_chunks r cs)) with (Writing.ok r).
        change (Writing.ok (Writing.with_chunks r [List.concat cs]))
          with (Writing.ok r).
        rewrite Hok. reflexivity. }
    apply (same_outcome_same_state _ _ st (Writing.with_chunks r cs)
             (Writing.with_chunks r [List.concat cs]) _ _
             Hs eq_refl eq_refl Hok Hok eq_refl eq_refl).
    simpl Writing.values. simpl Writing.failure.
    rewrite !ConsumerFacts.read_loop_lines by reflexivity.
    rewrite (ConsumerFacts.aligned_stream cs _ Ha Hb).
    unfold Writing.lines_of. simpl. rewrite app_nil_r. reflexivity.
  - intros cs payloads st Hs Ha Hb Hf Hp.
    rewrite (handleSubmit_streaming _ st (Writing.streamed cs) _ Hs eq_refl
               eq_refl eq_refl).
    pose proof (ConsumerFacts.read_loop_lines cs TextDecoder.new None
                  (Writing.setContent [] st) eq_refl) as E.
    rewrite (ConsumerFacts.aligned_stream cs _ Ha Hb), Hf in E.
    rewrite (frames_yield_payloads payloads _ Hp) in E.
    simpl Writing.values. simpl Writing.failure.
    destruct (Writing.read_loop TextDecoder.new cs None
                (Writing.setContent [] st)) as [[s n] c].
    unfold Writing.outcome in E. simpl in E. injection E as -> ->.
    simpl. repeat split.
  - vm_compute. repeat split.
Qed.

Lemma chunking_on_line_ends_witness :
  (forallb TextDecoder.ends_with_line_feed whole_line_chunks = true
   /\ forallb TextDecoder.no_bom (tl whole_line_chunks) = true
   /\ fst (Writing.handleSubmit
             (Writing.always
                (Writing.with_chunks (Writing.streamed []) whole_line_chunks))
             ready)
      = fst (Writing.handleSubmit
               (Writing.always
                  (Writing.with_chunks (Writing.streamed [])
                     [List.concat whole_line_chunks]))
               ready))
  /\ (Writing.content
        (fst (Writing.handleSubmit
                (Writing.always (Writing.streamed whole_line_chunks)) ready))
      = js "Hello world"
      /\ Writing.Completed
           (fst (Writing.handleSubmit
                   (Writing.always (Writing.streamed whole_line_chunks))
                   ready))).
Proof.
  split.
  - split; [reflexivity|]. split; [reflexivity|].
    apply (proj1 chunking_on_line_ends (Writing.streamed [])
             whole_line_chunks ready); reflexivity.
  - exact (proj1 (proj2 chunking_on_line_ends) whole_line_chunks
             [js "Hello "; js "world"; js "[DONE]"] ready
             eq_refl eq_refl eq_refl eq_refl eq_refl).
Defined.

(** C1, as stated, fails: the same bytes give "Hello world" in one chunk
    and "Hello" when the first line is cut after "Hello". *)
Lemma split_line_counterexample :
  Writing.content
    (fst (Writing.submit
            (Writing.always (Writing.streamed [List.concat hello_chunks]))
            ready))
  = js "Hello world"
  /\ Writing.content
       (fst (Writing.submit (Writing.always (Writing.streamed hello_chunks))
               ready))
     = js "Hello"
  /\ Writing.content
       (fst (Writing.submit (Writing.always (Writing.streamed hello_chunks))
               ready))
     <> js "Hello world".
Proof.
  vm_compute. repeat split. discriminate.
Qed.

(** ** The decoder across chunks *)

(** C2: the decoder object is created once and used for every chunk, but
    [decode] is called without the stream option, so each call decodes its
    chunk on its own: the loop handles the lines of every chunk decoded
    separately.  For the line "data: caf" with U+00E9 after it, cut
    inside that character, the concatenated bytes decode to the line with
    U+00E9; the component decodes the two chunks to texts ending and
    beginning with U+FFFD and accumulates "caf" with U+FFFD after it.  The
    same decoder object called with the stream option gives the text of the
    concatenated bytes. *)
Theorem split_character_is_replaced :
  (forall cs last st,
      Writing.outcome (Writing.read_loop TextDecoder.new cs last st)
      = match Writing.for_lines (Writing.lines_of cs) st with
        | (st', None) => (st', last)
        | thrown => thrown
        end)
  /\ TextDecoder.decode_all (List.concat cafe_chunks)
     = js "data: caf" ++ [0xE9; 10]%N
  /\ Writing.lines_of cafe_chunks
     = [js "data: caf" ++ [0xFFFD]%N; [0xFFFD]%N; []]
  /\ Writing.content
       (fst (Writing.submit (Writing.always (Writing.streamed cafe_chunks))
               ready))
     = js "caf" ++ [0xFFFD]%N
  /\ Writing.content
       (fst (Writing.submit
               (Writing.always (Writing.streamed [List.concat cafe_chunks]))
               ready))
     = js "caf" ++ [0xE9]%N
  /\ fst (TextDecoder.decode true TextDecoder.new (bytes "data: caf" ++ [xc3]))
     ++ fst (TextDecoder.decode true
               (snd (TextDecoder.decode true TextDecoder.new
                       (bytes "data: caf" ++ [xc3])))
               ([xa9] ++ NL))
     = TextDecoder.decode_all (List.concat cafe_chunks).
Proof.
  split.
  - intros cs last st. apply ConsumerFacts.read_loop_lines. reflexivity.
  - vm_compute. repeat split.
Qed.

(** ** Sentinel frames *)







(** ** The prompt guard *)

Lemma trim_start_blank s :
  forallb JS.is_space s = true -> JS.trim_start s = [].
Proof.
  induction s as [|c s IH]; simpl; [reflexivity|].
  rewrite andb_true_iff. intros [-> H]. apply IH. exact H.
Qed.

Lemma trim_blank s :
  forallb JS.is_space s = true -> JS.trim s = [].
Proof.
  intros H. unfold JS.trim. rewrite (trim_start_blank s H). reflexivity.
Qed.

(** C5: with a prompt that is empty or all white space the submit button
    is disabled, so submitting sends no request and changes nothing: the
    component stays idle. *)
Theorem blank_prompt_is_not_submitted net st :
  forallb JS.is_space (Writing.prompt st) = true ->
  Writing.submit net st = (st, []).
Proof.
  intros H. unfold Writing.submit, Writing.disabled.
  rewrite (trim_blank _ H). simpl. rewrite orb_true_r. reflexivity.
Qed.

Lemma blank_prompt_is_not_submitted_witness :
  Writing.submit (Writing.always (Writing.streamed hello_chunks)) blank_form
  = (blank_form, []).
Proof.
  exact (blank_prompt_is_not_submitted
           (Writing.always (Writing.streamed hello_chunks)) blank_form
           eq_refl).
Defined.

(** ** Failures *)

(** C6: when a stream fails in the middle, the text deltas received up to
    then stay in the component and on the page, and the request ends
    failed.  At an error frame (a whole line of one chunk, the first error
    signal of the stream) the content is the text deltas of the lines
    before the frame; at a read that rejects, in a stream without an error
    signal, it is the text deltas of all the chunks read.  The output
    block shows that text when it is not empty. *)
Theorem partial_output_survives_failure :
  (forall net st r b cs_before value cs_after ls_before payload ls_after,
      Writing.useStreaming st = true ->
      net (Writing.the_request Writing.generate_stream st)
      = Writing.Responded r ->
      Writing.ok r = true ->
      Writing.body r = Some b ->
      Writing.values b = cs_before ++ value :: cs_after ->
      JS.split_lines (TextDecoder.decode_all value)
      = ls_before ++ (js "data: " ++ payload) :: ls_after ->
      JS.startsWith payload (js "[ERROR]") = true ->
      Writing.first_error (Writing.lines_of cs_before ++ ls_before) = None ->
      Writing.content (fst (Writing.handleSubmit net st))
      = Writing.text_deltas (Writing.lines_of cs_before ++ ls_before)
      /\ Writing.output (fst (Writing.handleSubmit net st))
         = Writing.displayed
             (Writing.text_deltas (Writing.lines_of cs_before ++ ls_before))
      /\ Writing.Failed (fst (Writing.handleSubmit net st))
           (js "Error: " ++ payload))
  /\ (forall net st r b m,
         Writing.useStreaming st = true ->
         net (Writing.the_request Writing.generate_stream st)
         = Writing.Responded r ->
         Writing.ok r = true ->
         Writing.body r = Some b ->
         Writing.failure b = Some m ->
         Writing.first_error (Writing.lines_of (Writing.values b)) = None ->
         Writing.content (fst (Writing.handleSubmit net st))
         = Writing.text_deltas (Writing.lines_of (Writing.values b))
         /\ Writing.output (fst (Writing.handleSubmit net st))
            = Writing.displayed
                (Writing.text_deltas (Writing.lines_of (Writing.values b)))
         /\ Writing.Failed (fst (Writing.handleSubmit net st))
              (js "Error: " ++ m)).
Proof.
  split.
  - intros net st r b cs_before value cs_after ls_before payload ls_after
      Hs Hn Hok Hb Hv Hl He Hf.
    rewrite (handleSubmit_events net st r b Hs Hn Hok Hb).
    unfold Writing.completion_of.
    assert (L : Writing.lines_of (Writing.values b)
                = (Writing.lines_of cs_before ++ ls_before)
                  ++ (js "data: " ++ payload)
                     :: (ls_after ++ Writing.lines_of cs_after)).
    { rewrite Hv, lines_of_app, lines_of_cons, Hl, <- !app_assoc.
      reflexivity. }
    rewrite L, before_error_app, first_error_app, Hf.
    cbn [Writing.before_error Writing.first_error].
    rewrite (error_line_event payload He), app_nil_r.
    repeat split. discriminate.
  - intros net st r b m Hs Hn Hok Hb Hm Hf.
    rewrite (handleSubmit_events net st r b Hs Hn Hok Hb).
    unfold Writing.completion_of.
    rewrite (before_error_all _ Hf), Hf, Hm.
    repeat split. discriminate.
Qed.

Lemma partial_output_survives_failure_witness :
  (Writing.content
     (fst (Writing.handleSubmit
             (Writing.always (Writing.streamed error_stream)) ready))
   = js "partial text"
   /\ Writing.output
        (fst (Writing.handleSubmit
                (Writing.always (Writing.streamed error_stream)) ready))
      = Some (js "partial text")
   /\ Writing.Failed
        (fst (Writing.handleSubmit
                (Writing.always (Writing.streamed error_stream)) ready))
        (js "Error: [ERROR] rate limited"))
  /\ (Writing.content
        (fst (Writing.handleSubmit (Writing.always broken_stream) ready))
      = js "partial"
      /\ Writing.output
           (fst (Writing.handleSubmit (Writing.always broken_stream) ready))
         = Some (js "partial")
      /\ Writing.Failed
           (fst (Writing.handleSubmit (Writing.always broken_stream) ready))
           (js "Error: network error")).
Proof.
  split.
  - exact (proj1 partial_output_survives_failure
             (Writing.always (Writing.streamed error_stream)) ready
             (Writing.streamed error_stream)
             {| Writing.values := error_stream; Writing.failure := None |}
             [bytes "data: partial" ++ NL ++ NL] error_chunk
             [bytes "data: read" ++ NL]
             [js "data:  text"] (js "[ERROR] rate limited")
             [js "data: never"; []]
             eq_refl eq_refl eq_refl eq_refl eq_refl eq_refl eq_refl eq_refl).
  - exact (proj2 partial_output_survives_failure
             (Writing.always broken_stream) ready broken_stream
             {| Writing.values := [bytes "data: partial" ++ NL ++ NL];
                Writing.failure := Some (js "network error") |}
             (js "network error")
             eq_refl eq_refl eq_refl eq_refl eq_refl eq_refl).
Defined.

(** C7: in non-streaming mode a response with a non-success status ends
    the request failed, with the message "Error: HTTP error! status: "
    followed by the status in decimal; [generateRegular] sets that message
    and leaves the content as it was. *)
Theorem non_success_status_fails net st r :
  Writing.useStreaming st = false ->
  net (Writing.the_request Writing.generate st) = Writing.Responded r ->
  Writing.ok r = false ->
  Writing.Failed (fst (Writing.handleSubmit net st))
    (js "Error: HTTP error! status: " ++ JS.of_number (Writing.status r))
  /\ Writing.alert (fst (Writing.handleSubmit net st))
     = Some (js "Error: HTTP error! status: "
             ++ JS.of_number (Writing.status r))
  /\ fst (Writing.generateRegular net st)
     = Writing.setError
         (js "Error: HTTP error! status: " ++ JS.of_number (Writing.status r))
         st
  /\ Writing.content (fst (Writing.generateRegular net st)) = Writing.content st.
Proof.
  intros Hs Hn Hok. unfold Writing.handleSubmit. simpl. rewrite Hs.
  unfold Writing.generateRegular.
  change (Writing.the_request Writing.generate _)
    with (Writing.the_request Writing.generate st).
  rewrite Hn, Hok. simpl. repeat split. discriminate.
Qed.

Lemma non_success_status_fails_witness :
  Writing.Failed
    (fst (Writing.handleSubmit (Writing.always server_error) regular_form))
    (js "Error: HTTP error! status: 500")
  /\ Writing.alert
       (fst (Writing.handleSubmit (Writing.always server_error) regular_form))
     = Some (js "Error: HTTP error! status: 500")
  /\ fst (Writing.generateRegular (Writing.always server_error) regular_form)
     = Writing.setError (js "Error: HTTP error! status: 500") regular_form
  /\ Writing.content
       (fst (Writing.generateRegular (Writing.always server_error)
               regular_form))
     = js "earlier text".
Proof.
  exact (non_success_status_fails (Writing.always server_error) regular_form
           server_error eq_refl eq_refl eq_refl).
Defined.

(** ** The reset *)

(** C8: a submission empties the content before it calls a generator, so
    the content after a submission is the accumulated result of the new
    request and holds nothing of the text that was there before: the text
    deltas of the new stream up to its first error signal, [data.content]
    of the new JSON body, or nothing when the request failed before it
    gave any text.  The submission as a whole does not depend on the
    earlier text.  The streaming generator empties the content again
    before its loop when the response has a body; when it has none the
    generator throws before that, and the reset made by the submission is
    the one that counts. *)
Theorem submission_resets_content net st previous :
  Writing.content
    (fst (Writing.handleSubmit net (Writing.setContent previous st)))
  = Writing.new_result
      (net (Writing.the_request (Writing.endpoint_for st) st))
      (Writing.useStreaming st)
  /\ Writing.handleSubmit net (Writing.setContent previous st)
     = Writing.handleSubmit net (Writing.setContent [] st)
  /\ (forall r b,
         net (Writing.the_request Writing.generate_stream st)
         = Writing.Responded r ->
         Writing.ok r = true ->
         Writing.body r = Some b ->
         Writing.content
           (fst (Writing.generateStreaming net
                   (Writing.setContent previous st)))
         = Writing.text_deltas
             (Writing.before_error (Writing.lines_of (Writing.values b))))
  /\ (forall r,
         net (Writing.the_request Writing.generate_stream st)
         = Writing.Responded r ->
         Writing.ok r = true ->
         Writing.body r = None ->
         Writing.content
           (fst (Writing.generateStreaming net
                   (Writing.setContent previous st)))
         = previous).
Proof.
  split; [|split; [reflexivity|split]].
  - unfold Writing.endpoint_for, Writing.new_result.
    destruct (Writing.useStreaming st) eqn:Hs.
    + destruct (net (Writing.the_request Writing.generate_stream st))
        as [m|r] eqn:Hn.
      { unfold Writing.handleSubmit. simpl. rewrite Hs.
        unfold Writing.generateStreaming.
        change (Writing.the_request Writing.generate_stream _)
          with (Writing.the_request Writing.generate_stream st).
        rewrite Hn. reflexivity. }
      destruct (Writing.ok r) eqn:Hok.
      2:{ unfold Writing.handleSubmit. simpl. rewrite Hs.
          unfold Writing.generateStreaming.
          change (Writing.the_request Writing.generate_stream _)
            with (Writing.the_request Writing.generate_stream st).
          rewrite Hn, Hok. reflexivity. }
      simpl negb. cbv iota. unfold Writing.chunks.
      destruct (Writing.body r) as [b|] eqn:Hb.
      * rewrite (handleSubmit_events net (Writing.setContent previous st)
                   r b Hs Hn Hok Hb). reflexivity.
      * rewrite (handleSubmit_null_body net (Writing.setContent previous st)
                   r Hs Hn Hok Hb). reflexivity.
    + unfold Writing.handleSubmit. simpl. rewrite Hs.
      unfold Writing.generateRegular.
      change (Writing.the_request Writing.generate _)
        with (Writing.the_request Writing.generate st).
      destruct (net (Writing.the_request Writing.generate st)) as [m|r];
        [reflexivity|].
      destruct (Writing.ok r); [|reflexivity]. simpl.
      destruct (Writing.json r); reflexivity.
  - intros r b Hn Hok Hb. unfold Writing.generateStreaming.
    change (Writing.the_request Writing.generate_stream _)
      with (Writing.the_request Writing.generate_stream st).
    rewrite Hn, Hok, Hb. simpl negb. cbv iota.
    pose proof (ConsumerFacts.read_loop_lines (Writing.values b)
                  TextDecoder.new (Writing.failure b)
                  (Writing.setContent []
                     (Writing.setContent previous st)) eq_refl) as E.
    rewrite for_lines_events in E.
    destruct (Writing.read_loop TextDecoder.new (Writing.values b)
                (Writing.failure b) _) as [[s n] c].
    unfold Writing.outcome in E. simpl in E.
    destruct (Writing.first_error (Writing.lines_of (Writing.values b)));
      injection E as -> ->; [reflexivity|].
    destruct (Writing.failure b); reflexivity.
  - intros r Hn Hok Hb. unfold Writing.generateStreaming.
    change (Writing.the_request Writing.generate_stream _)
      with (Writing.the_request Writing.generate_stream st).
    rewrite Hn, Hok, Hb. reflexivity.
Qed.

Lemma submission_resets_content_witness :
  (Writing.content
     (fst (Writing.handleSubmit
             (Writing.always (Writing.streamed whole_line_chunks)) used_form))
   = js "Hello world"
   /\ Writing.handleSubmit
        (Writing.always (Writing.streamed whole_line_chunks)) used_form
      = Writing.handleSubmit
          (Writing.always (Writing.streamed whole_line_chunks))
          (Writing.setContent [] ready)
   /\ Writing.content
        (fst (Writing.generateStreaming
                (Writing.always (Writing.streamed whole_line_chunks))
                used_form))
      = js "Hello world")
  /\ (Writing.content
        (fst (Writing.handleSubmit (Writing.always no_content) used_form))
      = []
      /\ Writing.content
           (fst (Writing.generateStreaming (Writing.always no_content)
                   used_form))
         = js "earlier text").
Proof.
  split.
  - destruct (submission_resets_content
                (Writing.always (Writing.streamed whole_line_chunks))
                ready (js "earlier text")) as (H1 & H2 & H3 & _).
    split; [exact H1|]. split; [exact H2|].
    exact (H3 (Writing.streamed whole_line_chunks)
             {| Writing.values := whole_line_chunks;
                Writing.failure := None |}
             eq_refl eq_refl eq_refl).
  - destruct (submission_resets_content (Writing.always no_content)
                ready (js "earlier text")) as (H1 & _ & _ & H4).
    split; [exact H1|].
    exact (H4 no_content eq_refl eq_refl eq_refl).
Defined.

(** ** [renderMarkdown] *)

Module RenderFacts.

Import Listing.

Lemma split_from_match pending c s m rest :
  match_bold (c :: s) = Some (m, rest) ->
  split_from pending (c :: s) = pending :: m :: split_from [] rest.
Proof.
  intros H. simp split_from.
  destruct (inspect (match_bold (c :: s))) as [[[m' r']|] e]; simpl.
  - rewrite H in e. injection e as <- <-. reflexivity.
  - congruence.
Qed.

Lemma split_from_none pending c s :
  match_bold (c :: s) = None ->
  split_from pending (c :: s) = split_from (pending ++ [c]) s.
Proof.
  intros H. simp split_from.
  destruct (inspect (match_bold (c :: s))) as [[[m' r']|] e]; simpl.
  - congruence.
  - reflexivity.
Qed.

Lemma unmarked_match c s m rest :
  match_bold (c :: s) = Some (m, rest) ->
  unmarked (c :: s) = JS.slice_between 2 2 m ++ unmarked rest.
Proof.
  intros H. simp unmarked.
  destruct (inspect (match_bold (c :: s))) as [[[m' r']|] e]; simpl.
  - rewrite H in e. injection e as <- <-. reflexivity.
  - congruence.
Qed.

Lemma unmarked_none c s :
  match_bold (c :: s) = None -> unmarked (c :: s) = c :: unmarked s.
Proof.
  intros H. simp unmarked.
  destruct (inspect (match_bold (c :: s))) as [[[m' r']|] e]; simpl.
  - congruence.
  - reflexivity.
Qed.

Lemma lazy_close_ends s : forall m rest,
  lazy_close s = Some (m, rest) -> exists x, m = x ++ [STAR; STAR].
Proof.
  induction s as [|c s IH]; intros m rest; rewrite lazy_close_eq.
  - discriminate.
  - destruct (two_stars (c :: s)) as [r|].
    + intros [= <- <-]. exists []. reflexivity.
    + destruct (is_line_terminator c); [discriminate|].
      destruct (lazy_close s) as [[m' r]|]; [|discriminate].
      intros [= <- <-]. destruct (IH m' r eq_refl) as [x ->].
      exists (c :: x). reflexivity.
Qed.

(** A match begins and ends with two stars: it is rendered as an
    emphasised element. *)
Lemma match_bold_starred s m rest :
  match_bold s = Some (m, rest) ->
  render_part m = Strong (JS.slice_between 2 2 m).
Proof.
  unfold match_bold. destruct (two_stars s) as [s'|]; [|discriminate].
  destruct (lazy_close s') as [[m' r]|] eqn:E; [|discriminate].
  intros [= <- <-]. destruct (lazy_close_ends _ _ _ E) as [x ->].
  unfold render_part, starred, JS.endsWith.
  change (js "**") with [STAR; STAR].
  change (STAR :: STAR :: x ++ [STAR; STAR])
    with ([STAR; STAR] ++ x ++ [STAR; STAR]).
  rewrite FrameFacts.startsWith_app.
  rewrite !rev_app_distr.
  change (rev [STAR; STAR]) with [STAR; STAR].
  rewrite <- app_assoc, FrameFacts.startsWith_app. reflexivity.
Qed.

Lemma split_from_shown n : forall s pending,
  List.length s <= n ->
  Forall (fun p => starred p = false) (unmatched (split_from pending s)) ->
  shown_text (split_from pending s) = pending ++ unmarked s.
Proof.
  induction n as [|n IH]; intros s pending Hn Hu.
  - destruct s; [|simpl in Hn; lia].
    simp split_from in *. simpl in Hu. inversion Hu as [|? ? Hp _]; subst.
    unfold shown_text, render_part. simpl.
    rewrite Hp. simpl. simp unmarked. reflexivity.
  - destruct s as [|c s].
    { apply (IH [] pending); [simpl; lia|exact Hu]. }
    destruct (match_bold (c :: s)) as [[m rest]|] eqn:E.
    + rewrite (split_from_match pending c s m rest E) in *.
      rewrite (unmarked_match c s m rest E).
      simpl in Hu. inversion Hu as [|? ? Hp Hrest]; subst.
      pose proof (match_bold_shorter _ _ _ E) as L. simpl in L, Hn.
      assert (Hr : shown_text (split_from [] rest) = [] ++ unmarked rest).
      { apply IH; [lia|exact Hrest]. }
      unfold shown_text in *. simpl.
      rewrite (match_bold_starred _ _ _ E). simpl.
      unfold render_part at 1. rewrite Hp. simpl.
      rewrite Hr. reflexivity.
    + rewrite (split_from_none pending c s E) in *.
      rewrite (unmarked_none c s E). simpl in Hn.
      rewrite (IH s (pending ++ [c])); [|lia|exact Hu].
      rewrite <- app_assoc. reflexivity.
Qed.

(** Where no part between the matches begins and ends with two stars, the
    text shown is the text without the delimiters of the matches. *)
Lemma render_shows_unmarked text :
  Forall (fun p => starred p = false) (unmatched (split_bold text)) ->
  rendered_text (renderMarkdown text) = unmarked text.
Proof.
  intros H. destruct text as [|c text]; [reflexivity|].
  simpl. apply (split_from_shown _ (c :: text) [] (le_n _) H).
Qed.

End RenderFacts.

(** C9 at the failing inputs: a part that the pattern did not match but
    that begins and ends with two stars is rendered as an emphasised
    element without its first and last two characters.  For the text of
    two stars nothing is matched and nothing is shown; for "**bold" closed
    by four stars the match is shown as "bold" and the two stars after it
    are lost. *)
Theorem unmatched_stars_are_dropped :
  Listing.split_bold (js "**") = [js "**"]
  /\ Listing.renderMarkdown (js "**") = Some [Listing.Strong []]
  /\ Listing.rendered_text (Listing.renderMarkdown (js "**")) = []
  /\ Listing.unmarked (js "**") = js "**"
  /\ Listing.split_bold (js "**bold****") = [[]; js "**bold**"; js "**"]
  /\ Listing.rendered_text (Listing.renderMarkdown (js "**bold****"))
     = js "bold"
  /\ Listing.unmarked (js "**bold****") = js "bold**".
Proof. repeat split; reflexivity. Qed.

(** ** Regeneration *)

(** C10: when the request of a regenerate handler fails (the fetch
    rejects, or the response is not ok), whatever the server does for the
    other section, the handler leaves the description and the caption as
    they were: the state after it is the state before with the error
    message set and the handler's busy flag off. *)
Theorem failed_regeneration_keeps_output net st :
  (Listing.fails net (Listing.regenerate_request (js "description") st) ->
   Listing.handleRegenerateDescription net st
   = Listing.setIsRegeneratingDescription false
       (Listing.setError
          (Listing.failure_message net
             (Listing.regenerate_request (js "description") st)) st)
   /\ Listing.description (Listing.handleRegenerateDescription net st)
      = Listing.description st
   /\ Listing.socialCaption (Listing.handleRegenerateDescription net st)
      = Listing.socialCaption st)
  /\ (Listing.fails net (Listing.regenerate_request (js "social") st) ->
      Listing.handleRegenerateSocial net st
      = Listing.setIsRegeneratingSocial false
          (Listing.setError
             (Listing.failure_message net
                (Listing.regenerate_request (js "social") st)) st)
      /\ Listing.description (Listing.handleRegenerateSocial net st)
         = Listing.description st
      /\ Listing.socialCaption (Listing.handleRegenerateSocial net st)
         = Listing.socialCaption st).
Proof.
  unfold Listing.fails, Listing.failure_message.
  unfold Listing.handleRegenerateDescription, Listing.handleRegenerateSocial,
    Listing.regenerate.
  change (Listing.regenerate_request (js "description") _)
    with (Listing.regenerate_request (js "description") st).
  change (Listing.regenerate_request (js "social") _)
    with (Listing.regenerate_request (js "social") st).
  split.
  - destruct (net (Listing.regenerate_request (js "description") st))
      as [m|r]; intros H; try rewrite H; simpl; repeat split.
  - destruct (net (Listing.regenerate_request (js "social") st))
      as [m|r]; intros H; try rewrite H; simpl; repeat split.
Qed.

Lemma failed_regeneration_keeps_output_witness :
  (Listing.handleRegenerateDescription description_down Listing.shown
   = Listing.setIsRegeneratingDescription false
       (Listing.setError (js "Failed to fetch") Listing.shown)
   /\ Listing.description
        (Listing.handleRegenerateDescription description_down Listing.shown)
      = js "A **bright** house"
   /\ Listing.socialCaption
        (Listing.handleRegenerateDescription description_down Listing.shown)
      = js "Just listed")
  /\ (Listing.handleRegenerateSocial social_down Listing.shown
      = Listing.setIsRegeneratingSocial false
          (Listing.setError (js "Failed to regenerate") Listing.shown)
      /\ Listing.description
           (Listing.handleRegenerateSocial social_down Listing.shown)
         = js "A **bright** house"
      /\ Listing.socialCaption
           (Listing.handleRegenerateSocial social_down Listing.shown)
         = js "Just listed").
Proof.
  split.
  - exact (proj1 (failed_regeneration_keeps_output description_down
                    Listing.shown) I).
  - exact (proj2 (failed_regeneration_keeps_output social_down
                    Listing.shown) eq_refl).
Defined.

(** ** Examples *)

Example decode_ascii :
  TextDecoder.decode_all (bytes "data: Hello") = js "data: Hello".
Proof. reflexivity. Qed.

Example decode_e_acute :
  TextDecoder.decode_all [x63; x61; x66; xc3; xa9] = js "caf" ++ [0xE9%N].
Proof. reflexivity. Qed.

Example decode_truncated :
  TextDecoder.decode_all [x63; x61; x66; xc3] = js "caf" ++ [0xFFFD%N].
Proof. reflexivity. Qed.

Example decode_astral :
  TextDecoder.decode_all [xf0; x9f; x98; x80] = [0xD83D; 0xDE00]%N.
Proof. reflexivity. Qed.

Example split_lines_example :
  JS.split_lines (js " world" ++ [10; 10]%N ++ js "data: [DONE]" ++ [10; 10]%N)
  = [js " world"; []; js "data: [DONE]"; []; []].
Proof. reflexivity. Qed.

Example hello_first_chunk_only :
  let st := Writing.setPrompt (js "hi") Writing.initial in
  let cs := [bytes "data: Hello";
             bytes " world" ++ NL ++ NL ++ bytes "data: [DONE]" ++ NL ++ NL] in
  Writing.content (fst (Writing.submit (Writing.always (Writing.streamed cs)) st))
  = js "Hello".
Proof. vm_compute. reflexivity. Qed.

Example render_bold :
  Listing.renderMarkdown (js "a **b** c")
  = Some [Listing.Text (js "a "); Listing.Strong (js "b"); Listing.Text (js " c")].
Proof. reflexivity. Qed.

Example render_lone_stars :
  Listing.renderMarkdown (js "**bold****")
  = Some [Listing.Text []; Listing.Strong (js "bold"); Listing.Strong []].
Proof. reflexivity. Qed.

(** * Further properties *)

Import RenderFacts.

(** ** More on submissions *)

Module SubmitMore.

Import Writing ConsumerFacts.

(** The loop changes nothing but the content, and only by appending. *)
Lemma for_line_grows line st :
  exists added,
    fst (for_line line st) = setContent (content st ++ added) st.
Proof.
  unfold for_line.
  destruct (negb (JS.startsWith line (js "data: "))); simpl.
  { exists []. rewrite app_nil_r, setContent_same. reflexivity. }
  destruct (JS.eqb _ _); simpl.
  { exists []. rewrite app_nil_r, setContent_same. reflexivity. }
  destruct (JS.startsWith _ _); simpl.
  { exists []. rewrite app_nil_r, setContent_same. reflexivity. }
  eexists. reflexivity.
Qed.

Lemma for_lines_grows lines : forall st,
  exists added,
    fst (for_lines lines st) = setContent (content st ++ added) st.
Proof.
  induction lines as [|line lines IH]; intros st; simpl.
  - exists []. rewrite app_nil_r, setContent_same. reflexivity.
  - destruct (for_line_grows line st) as [a1 E1].
    destruct (for_line line st) as [s1 [m|]]; simpl in E1.
    + exists a1. exact E1.
    + destruct (IH s1) as [a2 E2]. exists (a1 ++ a2).
      rewrite E2, E1. simpl. rewrite app_assoc. reflexivity.
Qed.

Lemma read_loop_grows cs : forall d last st,
  exists added,
    fst (fst (read_loop d cs last st)) = setContent (content st ++ added) st.
Proof.
  induction cs as [|value cs IH]; intros d last st; simpl.
  - exists []. rewrite app_nil_r, setContent_same. reflexivity.
  - destruct (TextDecoder.decode false d value) as [chunk d'].
    destruct (for_lines_grows (JS.split_lines chunk) st) as [a1 E1].
    destruct (for_lines (JS.split_lines chunk) st) as [s1 [m|]];
      simpl in E1.
    + exists a1. exact E1.
    + destruct (IH d' last s1) as [a2 E2].
      destruct (read_loop d' cs last s1) as [[s2 n] c]. simpl in E2 |- *.
      exists (a1 ++ a2). rewrite E2, E1. simpl. rewrite app_assoc.
      reflexivity.
Qed.

(** The loading flag, the form inputs and the log of a submission. *)
Lemma handleSubmit_settles net st :
  Writing.isLoading (fst (Writing.handleSubmit net st)) = false
  /\ Writing.prompt (fst (Writing.handleSubmit net st)) = Writing.prompt st
  /\ Writing.writingType (fst (Writing.handleSubmit net st))
     = Writing.writingType st
  /\ Writing.tone (fst (Writing.handleSubmit net st)) = Writing.tone st
  /\ Writing.useStreaming (fst (Writing.handleSubmit net st))
     = Writing.useStreaming st
  /\ exists n,
      snd (Writing.handleSubmit net st)
      = Writing.Fetch (Writing.the_request (Writing.endpoint_for st) st)
        :: repeat Writing.Read n.
Proof.
  unfold Writing.handleSubmit, Writing.endpoint_for. simpl.
  destruct (Writing.useStreaming st) eqn:Hs.
  - unfold Writing.generateStreaming.
    change (Writing.the_request Writing.generate_stream _)
      with (Writing.the_request Writing.generate_stream st).
    destruct (net _) as [m|r]; simpl.
    { repeat split; try assumption. exists 0. reflexivity. }
    destruct (Writing.ok r); simpl.
    2:{ repeat split; try assumption. exists 0. reflexivity. }
    destruct (Writing.body r) as [b|]; simpl.
    2:{ repeat split; try assumption. exists 0. reflexivity. }
    match goal with
    | |- context [Writing.read_loop ?d ?cs ?l ?s] =>
        destruct (read_loop_grows cs d l s) as [added E];
        destruct (Writing.read_loop d cs l s) as [[s2 n] c]
    end.
    simpl in E. subst s2.
    destruct c; simpl; repeat split; try assumption; exists n; reflexivity.
  - unfold Writing.generateRegular.
    change (Writing.the_request Writing.generate _)
      with (Writing.the_request Writing.generate st).
    destruct (net _) as [m|r]; simpl.
    { repeat split; try assumption. exists 0. reflexivity. }
    destruct (Writing.ok r); simpl.
    2:{ repeat split; try assumption. exists 0. reflexivity. }
    destruct (Writing.json r); simpl; repeat split; try assumption;
      exists 0; reflexivity.
Qed.

End SubmitMore.
Import SubmitMore.

(** X1: whatever the network does, a submission ends with the loading flag
    off, leaves the form inputs (prompt, writing type, tone, streaming
    switch) as they were, and sends exactly one request, to the endpoint of
    the selected mode with the form's inputs; everything after it in the
    log is a read of the response body. *)
Theorem submission_always_settles net st :
  Writing.isLoading (fst (Writing.handleSubmit net st)) = false
  /\ Writing.prompt (fst (Writing.handleSubmit net st)) = Writing.prompt st
  /\ Writing.writingType (fst (Writing.handleSubmit net st))
     = Writing.writingType st
  /\ Writing.tone (fst (Writing.handleSubmit net st)) = Writing.tone st
  /\ Writing.useStreaming (fst (Writing.handleSubmit net st))
     = Writing.useStreaming st
  /\ exists n,
      snd (Writing.handleSubmit net st)
      = Writing.Fetch (Writing.the_request (Writing.endpoint_for st) st)
        :: repeat Writing.Read n.
Proof. apply handleSubmit_settles. Qed.

(** X2: when [fetch] rejects, in either mode, the request ends failed with
    "Error: " and the rejection message, the content is empty, and nothing
    but the one request was attempted. *)
Theorem rejected_fetch_fails net st m :
  net (Writing.the_request (Writing.endpoint_for st) st) = Writing.Rejected m ->
  Writing.handleSubmit net st
  = (Writing.setIsLoading false
       (Writing.setContent [] (Writing.setError (js "Error: " ++ m) st)),
     [Writing.Fetch (Writing.the_request (Writing.endpoint_for st) st)])
  /\ Writing.Failed (fst (Writing.handleSubmit net st)) (js "Error: " ++ m)
  /\ Writing.output (fst (Writing.handleSubmit net st)) = None.
Proof.
  unfold Writing.endpoint_for, Writing.handleSubmit. simpl.
  destruct (Writing.useStreaming st) eqn:Hs; intros Hn.
  - unfold Writing.generateStreaming.
    change (Writing.the_request Writing.generate_stream _)
      with (Writing.the_request Writing.generate_stream st).
    rewrite Hn. simpl. repeat split. discriminate.
  - unfold Writing.generateRegular.
    change (Writing.the_request Writing.generate _)
      with (Writing.the_request Writing.generate st).
    rewrite Hn. simpl. repeat split. discriminate.
Qed.

Lemma rejected_fetch_fails_witness :
  Writing.handleSubmit offline used_form
  = (Writing.setIsLoading false
       (Writing.setContent []
          (Writing.setError (js "Error: Failed to fetch") used_form)),
     [Writing.Fetch (Writing.the_request Writing.generate_stream used_form)])
  /\ Writing.Failed (fst (Writing.handleSubmit offline used_form))
       (js "Error: Failed to fetch")
  /\ Writing.output (fst (Writing.handleSubmit offline used_form)) = None.
Proof.
  exact (rejected_fetch_fails offline used_form (js "Failed to fetch") eq_refl).
Defined.

(** X3: in streaming mode a response with a non-success status is not
    read: the request ends failed with the status in the message, the
    content is empty, and no [read] is called on the body. *)
Theorem streaming_non_success_is_not_read net st r :
  Writing.useStreaming st = true ->
  net (Writing.the_request Writing.generate_stream st) = Writing.Responded r ->
  Writing.ok r = false ->
  Writing.Failed (fst (Writing.handleSubmit net st))
    (js "Error: HTTP error! status: " ++ JS.of_number (Writing.status r))
  /\ Writing.content (fst (Writing.handleSubmit net st)) = []
  /\ snd (Writing.handleSubmit net st)
     = [Writing.Fetch (Writing.the_request Writing.generate_stream st)].
Proof.
  intros Hs Hn Hok. unfold Writing.handleSubmit. simpl. rewrite Hs.
  unfold Writing.generateStreaming.
  change (Writing.the_request Writing.generate_stream _)
    with (Writing.the_request Writing.generate_stream st).
  rewrite Hn, Hok. simpl. repeat split. discriminate.
Qed.

Lemma streaming_non_success_is_not_read_witness :
  Writing.Failed (fst (Writing.handleSubmit (Writing.always not_found) ready))
    (js "Error: HTTP error! status: 404")
  /\ Writing.content
       (fst (Writing.handleSubmit (Writing.always not_found) ready)) = []
  /\ snd (Writing.handleSubmit (Writing.always not_found) ready)
     = [Writing.Fetch (Writing.the_request Writing.generate_stream ready)].
Proof.
  exact (streaming_non_success_is_not_read (Writing.always not_found) ready
           not_found eq_refl eq_refl eq_refl).
Defined.

(** X4: in non-streaming mode a successful response whose body parses puts
    [data.content] in the content and leaves no error, whatever error and
    content were there before; a body that does not parse ends the request
    failed with the parser's message and an empty content. *)
Theorem regular_response_outcome net st r :
  Writing.useStreaming st = false ->
  net (Writing.the_request Writing.generate st) = Writing.Responded r ->
  Writing.ok r = true ->
  match Writing.json r with
  | inr data_content =>
      Writing.content (fst (Writing.handleSubmit net st)) = data_content
      /\ Writing.Completed (fst (Writing.handleSubmit net st))
  | inl m =>
      Writing.content (fst (Writing.handleSubmit net st)) = []
      /\ Writing.Failed (fst (Writing.handleSubmit net st)) (js "Error: " ++ m)
  end.
Proof.
  intros Hs Hn Hok. unfold Writing.handleSubmit. simpl. rewrite Hs.
  unfold Writing.generateRegular.
  change (Writing.the_request Writing.generate _)
    with (Writing.the_request Writing.generate st).
  rewrite Hn, Hok. simpl.
  destruct (Writing.json r); simpl; repeat split. discriminate.
Qed.

Lemma regular_response_outcome_witness :
  Writing.content
    (fst (Writing.handleSubmit (Writing.always generated_text) failed_form))
  = js "A post."
  /\ Writing.Completed
       (fst (Writing.handleSubmit (Writing.always generated_text) failed_form)).
Proof.
  exact (regular_response_outcome (Writing.always generated_text) failed_form
           generated_text eq_refl eq_refl eq_refl).
Defined.

(** X5: a line that does not begin with "data: " (a blank line, a comment,
    a field without the space after the colon, the tail of a line cut by a
    chunk boundary) is ignored: the lines around it are handled as if it
    were not there. *)
Theorem other_lines_are_ignored before line after st :
  JS.startsWith line (js "data: ") = false ->
  Writing.for_lines (before ++ line :: after) st
  = Writing.for_lines (before ++ after) st.
Proof.
  intros H. rewrite !ConsumerFacts.for_lines_app.
  destruct (Writing.for_lines before st) as [s1 [m|]]; [reflexivity|].
  simpl. unfold Writing.for_line at 1. rewrite H. reflexivity.
Qed.

Lemma other_lines_are_ignored_witness :
  Writing.for_lines ([js "data: a"] ++ js "data:b" :: [js "data: c"]) ready
  = Writing.for_lines ([js "data: a"] ++ [js "data: c"]) ready.
Proof.
  exact (other_lines_are_ignored [js "data: a"] (js "data:b") [js "data: c"]
           ready eq_refl).
Defined.

(** X6: a stream without an error signal is read to its end: one read for
    every chunk and one more; the content is the text deltas of all the
    chunks, and the request ends completed, or failed with the message of
    the read that rejected.  A response without a body (status 204 or 205)
    is not read at all: asking the missing body for a reader throws, the
    request ends failed with the message of that error and the content
    empty, and the log holds the request only. *)
Theorem stream_is_read_to_the_end net st r :
  Writing.useStreaming st = true ->
  net (Writing.the_request Writing.generate_stream st) = Writing.Responded r ->
  Writing.ok r = true ->
  (forall b,
      Writing.body r = Some b ->
      Writing.first_error (Writing.lines_of (Writing.values b)) = None ->
      snd (Writing.handleSubmit net st)
      = Writing.Fetch (Writing.the_request Writing.generate_stream st)
        :: repeat Writing.Read (S (List.length (Writing.values b)))
      /\ Writing.content (fst (Writing.handleSubmit net st))
         = Writing.text_deltas (Writing.lines_of (Writing.values b))
      /\ Writing.error (fst (Writing.handleSubmit net st))
         = Writing.message_of (Writing.failure b))
  /\ (Writing.body r = None ->
      snd (Writing.handleSubmit net st)
      = [Writing.Fetch (Writing.the_request Writing.generate_stream st)]
      /\ Writing.content (fst (Writing.handleSubmit net st)) = []
      /\ Writing.Failed (fst (Writing.handleSubmit net st))
           (js "Error: " ++ Writing.null_body_message)).
Proof.
  intros Hs Hn Hok. split.
  - intros b Hb He. split.
    { apply (handleSubmit_reads_all net st r b Hs Hn Hok Hb He). }
    rewrite (handleSubmit_events net st r b Hs Hn Hok Hb).
    unfold Writing.completion_of. rewrite (before_error_all _ He), He.
    split; reflexivity.
  - intros Hb. rewrite (handleSubmit_null_body net st r Hs Hn Hok Hb).
    repeat split. discriminate.
Qed.

Lemma stream_is_read_to_the_end_witness :
  (snd (Writing.handleSubmit (Writing.always broken_stream) ready)
   = [Writing.Fetch (Writing.the_request Writing.generate_stream ready);
      Writing.Read; Writing.Read]
   /\ Writing.content
        (fst (Writing.handleSubmit (Writing.always broken_stream) ready))
      = js "partial"
   /\ Writing.error
        (fst (Writing.handleSubmit (Writing.always broken_stream) ready))
      = js "Error: network error")
  /\ (snd (Writing.handleSubmit (Writing.always no_content) used_form)
      = [Writing.Fetch (Writing.the_request Writing.generate_stream used_form)]
      /\ Writing.content
           (fst (Writing.handleSubmit (Writing.always no_content) used_form))
         = []
      /\ Writing.Failed
           (fst (Writing.handleSubmit (Writing.always no_content) used_form))
           (js "Error: Cannot read properties of null (reading 'getReader')")).
Proof.
  split.
  - exact (proj1 (stream_is_read_to_the_end (Writing.always broken_stream)
                    ready broken_stream eq_refl eq_refl eq_refl)
             {| Writing.values := [bytes "data: partial" ++ NL ++ NL];
                Writing.failure := Some (js "network error") |}
             eq_refl eq_refl).
  - exact (proj2 (stream_is_read_to_the_end (Writing.always no_content)
                    used_form no_content eq_refl eq_refl eq_refl)
             eq_refl).
Defined.

(** X7: the content only grows while a stream is consumed.  The text
    accumulated from any first chunks that were handled without a throw is
    a prefix of the content at the end of the request, however the request
    ends. *)
Theorem content_only_grows net st r cs1 cs2 :
  Writing.useStreaming st = true ->
  net (Writing.the_request Writing.generate_stream st) = Writing.Responded r ->
  Writing.ok r = true ->
  Writing.chunks r = cs1 ++ cs2 ->
  snd (Writing.for_lines (Writing.lines_of cs1) st) = None ->
  exists rest,
    Writing.content (fst (Writing.handleSubmit net st))
    = Writing.content
        (fst (Writing.for_lines (Writing.lines_of cs1)
                (Writing.setContent [] st)))
      ++ rest.
Proof.
  intros Hs Hn Hok Hc Hl. unfold Writing.chunks in Hc.
  destruct (Writing.body r) as [b|] eqn:Hb.
  2:{ rewrite (handleSubmit_null_body net st r Hs Hn Hok Hb).
      symmetry in Hc. apply app_eq_nil in Hc. destruct Hc as [-> _].
      exists []. reflexivity. }
  rewrite (handleSubmit_streaming net st r b Hs Hn Hok Hb), Hc.
  rewrite (for_lines_completion _ st (Writing.setContent [] st)) in Hl.
  rewrite (read_loop_app cs1 cs2 TextDecoder.new (Writing.failure b)
             (Writing.setContent [] st) eq_refl Hl).
  match goal with
  | |- context [Writing.read_loop ?d cs2 ?l ?s] =>
      destruct (read_loop_grows cs2 d l s) as [added E];
      destruct (Writing.read_loop d cs2 l s) as [[s2 n] c]
  end.
  simpl in E. subst s2. exists added. reflexivity.
Qed.

Lemma content_only_grows_witness :
  exists rest,
    Writing.content
      (fst (Writing.handleSubmit
              (Writing.always (Writing.streamed error_stream)) ready))
    = Writing.content
        (fst (Writing.for_lines
                (Writing.lines_of [bytes "data: partial" ++ NL ++ NL])
                (Writing.setContent [] ready)))
      ++ rest.
Proof.
  exact (content_only_grows (Writing.always (Writing.streamed error_stream))
           ready (Writing.streamed error_stream)
           [bytes "data: partial" ++ NL ++ NL]
           [error_chunk; bytes "data: read" ++ NL]
           eq_refl eq_refl eq_refl eq_refl eq_refl).
Defined.

Module LineMore.

Import Writing ConsumerFacts.

(** Frames followed by more text: the frames are handled, then the
    text. *)
Lemma frames_then payloads tail : forall st,
  forallb is_plain payloads = true ->
  for_lines (JS.split_lines (flat_map frame payloads ++ tail)) st
  = for_lines (JS.split_lines tail)
      (setContent (content st ++ List.concat (filter is_delta payloads)) st).
Proof.
  induction payloads as [|p ps IH]; intros st H.
  - simpl. rewrite app_nil_r, setContent_same. reflexivity.
  - simpl in H. apply andb_true_iff in H. destruct H as [Hp Hps].
    assert (E : flat_map frame (p :: ps) ++ tail
                = (js "data: " ++ p)
                  ++ JS.LF :: ([] ++ JS.LF :: (flat_map frame ps ++ tail))).
    { change (flat_map frame (p :: ps)) with (frame p ++ flat_map frame ps).
      unfold frame. rewrite <- !app_assoc. reflexivity. }
    rewrite E, !split_lines_app.
    assert (L : existsb (N.eqb JS.LF) (js "data: " ++ p) = false).
    { rewrite existsb_app, (is_plain_one_line p Hp). reflexivity. }
    rewrite (split_lines_one _ L).
    change (JS.split_lines []) with [@nil N].
    cbn [app for_lines filter].
    destruct (is_delta p) eqn:Dp.
    + rewrite (for_line_delta p st Dp).
      rewrite for_line_blank, (IH _ Hps). simpl. rewrite <- app_assoc.
      reflexivity.
    + unfold is_plain in Hp. rewrite Dp in Hp. simpl in Hp.
      rewrite (for_line_done p st Hp).
      rewrite for_line_blank, (IH _ Hps). reflexivity.
Qed.

Lemma is_delta_one_line p :
  is_delta p = true -> existsb (N.eqb JS.LF) p = false.
Proof.
  unfold is_delta. rewrite !andb_true_iff, !negb_true_iff. tauto.
Qed.

(** *** [trim] *)

Lemma trim_start_head s c t :
  JS.trim_start s = c :: t -> JS.is_space c = false.
Proof.
  induction s as [|x s IH]; simpl; [discriminate|].
  destruct (JS.is_space x) eqn:E; [exact IH|].
  intros [= <- _]. exact E.
Qed.

Lemma trim_start_nil s :
  JS.trim_start s = [] -> forallb JS.is_space s = true.
Proof.
  induction s as [|x s IH]; simpl; [reflexivity|].
  destruct (JS.is_space x); [exact IH|discriminate].
Qed.

Lemma trim_nil s : JS.trim s = [] -> forallb JS.is_space s = true.
Proof.
  unfold JS.trim. intros H.
  apply (f_equal (@rev N)) in H. rewrite rev_involutive in H. simpl in H.
  apply trim_start_nil in H.
  destruct (JS.trim_start s) as [|c t] eqn:E.
  - apply trim_start_nil. exact E.
  - apply trim_start_head in E.
    rewrite forallb_forall in H.
    rewrite (H c) in E; [discriminate|].
    apply in_rev. rewrite rev_involutive. left. reflexivity.
Qed.

Lemma truthy_trim s :
  JS.truthy (JS.trim s) = negb (forallb JS.is_space s).
Proof.
  destruct (forallb JS.is_space s) eqn:E.
  - rewrite (trim_blank s E). reflexivity.
  - destruct (JS.trim s) eqn:T; [|reflexivity].
    apply trim_nil in T. congruence.
Qed.

End LineMore.
Import LineMore.

(** X8: a last line without a line feed is handled like the others.  When
    the text of the only chunk is the frames of some payloads followed by
    "data: " and a text payload with nothing after it, that payload is
    appended after the others and the request ends completed. *)
Theorem unterminated_last_line_is_handled value payloads p st :
  Writing.useStreaming st = true ->
  TextDecoder.decode_all value
  = flat_map Writing.frame payloads ++ js "data: " ++ p ->
  forallb Writing.is_plain payloads = true ->
  Writing.is_delta p = true ->
  Writing.content
    (fst (Writing.handleSubmit (Writing.always (Writing.streamed [value])) st))
  = List.concat (filter Writing.is_delta payloads) ++ p
  /\ Writing.Completed
       (fst (Writing.handleSubmit (Writing.always (Writing.streamed [value]))
               st)).
Proof.
  intros Hs Hd Hp Hl.
  rewrite (handleSubmit_streaming _ st (Writing.streamed [value]) _ Hs
             eq_refl eq_refl eq_refl).
  pose proof (ConsumerFacts.read_loop_lines [value] TextDecoder.new None
                (Writing.setContent [] st) eq_refl) as E.
  unfold Writing.lines_of in E. simpl flat_map in E.
  rewrite app_nil_r, Hd, (frames_then payloads _ _ Hp) in E.
  assert (L : existsb (N.eqb JS.LF) (js "data: " ++ p) = false).
  { rewrite existsb_app, (is_delta_one_line p Hl). reflexivity. }
  rewrite (split_lines_one _ L) in E. cbn [Writing.for_lines] in E.
  rewrite (for_line_delta p _ Hl) in E.
  simpl Writing.values. simpl Writing.failure.
  destruct (Writing.read_loop TextDecoder.new [value] None
              (Writing.setContent [] st)) as [[s n] c].
  unfold Writing.outcome in E. simpl in E. injection E as -> ->.
  simpl. repeat split.
Qed.

Lemma unterminated_last_line_is_handled_witness :
  Writing.content
    (fst (Writing.handleSubmit
            (Writing.always
               (Writing.streamed
                  [bytes "data: Hello" ++ NL ++ NL ++ bytes "data:  world"]))
            ready))
  = List.concat (filter Writing.is_delta [js "Hello"]) ++ js " world"
  /\ Writing.Completed
       (fst (Writing.handleSubmit
               (Writing.always
                  (Writing.streamed
                     [bytes "data: Hello" ++ NL ++ NL
                      ++ bytes "data:  world"]))
               ready)).
Proof.
  exact (unterminated_last_line_is_handled
           (bytes "data: Hello" ++ NL ++ NL ++ bytes "data:  world")
           [js "Hello"] (js " world") ready eq_refl eq_refl eq_refl eq_refl).
Defined.

(** X9: submitting the form sends nothing exactly when a request is in
    flight or the prompt has no character other than white space: the
    button is disabled in just these cases, and an enabled button always
    leads to a request. *)
Theorem nothing_sent_iff_loading_or_blank net st :
  Writing.disabled st
  = Writing.isLoading st || forallb JS.is_space (Writing.prompt st)
  /\ match snd (Writing.submit net st) with
     | [] => true
     | _ :: _ => false
     end
     = Writing.isLoading st || forallb JS.is_space (Writing.prompt st).
Proof.
  assert (D : Writing.disabled st
              = Writing.isLoading st || forallb JS.is_space (Writing.prompt st)).
  { unfold Writing.disabled. rewrite truthy_trim, negb_involutive.
    reflexivity. }
  split; [exact D|]. rewrite <- D. unfold Writing.submit.
  destruct (Writing.disabled st); [reflexivity|].
  destruct (handleSubmit_settles net st) as (_ & _ & _ & _ & _ & n & E).
  rewrite E. reflexivity.
Qed.

(** X10: only the exact payload "[DONE]" is the end signal.  With anything
    after it (a carriage return of a CR LF line end, a space) the payload
    is text: it is appended to the content as it is. *)
Theorem done_with_a_suffix_is_text suffix st :
  JS.truthy suffix = true ->
  Writing.for_line (js "data: [DONE]" ++ suffix) st
  = (Writing.setContent (Writing.content st ++ js "[DONE]" ++ suffix) st, None).
Proof.
  intros H. destruct suffix as [|c suffix]; [discriminate|]. reflexivity.
Qed.

Lemma done_with_a_suffix_is_text_witness :
  Writing.for_line (js "data: [DONE]" ++ [13%N]) ready
  = (Writing.setContent (Writing.content ready ++ js "[DONE]" ++ [13%N]) ready,
     None).
Proof.
  exact (done_with_a_suffix_is_text [13%N] ready eq_refl).
Defined.

Module FormFacts.

Import Listing.

Lemma eqb_refl a : JS.eqb a a = true.
Proof.
  induction a as [|x a IH]; simpl; [reflexivity|].
  rewrite N.eqb_refl. exact IH.
Qed.

Lemma eqb_sym a : forall b, JS.eqb a b = JS.eqb b a.
Proof.
  induction a as [|x a IH]; intros [|y b]; simpl; try reflexivity.
  rewrite N.eqb_sym, IH. reflexivity.
Qed.

Lemma eqb_neq a b : JS.eqb a b = false -> a <> b.
Proof. intros H E. subst. rewrite eqb_refl in H. discriminate. Qed.

Lemma includes_in l x : includes l x = true <-> In x l.
Proof.
  unfold includes. rewrite existsb_exists. split.
  - intros (y & Hy & E). apply eqb_eq in E. subst. exact Hy.
  - intros H. exists x. split; [exact H|apply eqb_refl].
Qed.

Lemma includes_filter l f g :
  includes (filter (fun x => negb (JS.eqb x f)) l) g
  = includes l g && negb (JS.eqb g f).
Proof.
  unfold includes. induction l as [|x l IH]; simpl; [reflexivity|].
  destruct (JS.eqb x f) eqn:E; simpl.
  - rewrite IH. apply eqb_eq in E. subst x.
    destruct (JS.eqb g f); simpl; [rewrite andb_false_r|]; reflexivity.
  - rewrite IH. destruct (JS.eqb g x) eqn:G; simpl; [|reflexivity].
    apply eqb_eq in G. subst g. rewrite E. reflexivity.
Qed.

Lemma includes_app l1 l2 g :
  includes (l1 ++ l2) g = includes l1 g || includes l2 g.
Proof. unfold includes. apply existsb_app. Qed.

Lemma filter_absent l f :
  includes l f = false -> filter (fun x => negb (JS.eqb x f)) l = l.
Proof.
  unfold includes. induction l as [|x l IH]; simpl; [reflexivity|].
  rewrite orb_false_iff. intros [E H]. rewrite eqb_sym, E. simpl.
  rewrite (IH H). reflexivity.
Qed.

End FormFacts.
Import FormFacts.

(** X11: toggling a feature flips whether it is selected and changes
    nothing for any other feature. *)
Theorem toggle_flips_one_feature feature prev :
  Listing.includes (Listing.toggle feature prev) feature
  = negb (Listing.includes prev feature)
  /\ forall other,
      JS.eqb other feature = false ->
      Listing.includes (Listing.toggle feature prev) other
      = Listing.includes prev other.
Proof.
  unfold Listing.toggle. destruct (Listing.includes prev feature) eqn:E.
  - split.
    + rewrite includes_filter, eqb_refl, andb_false_r. reflexivity.
    + intros other H. rewrite includes_filter, H, andb_true_r. reflexivity.
  - split.
    + rewrite includes_app, E. unfold Listing.includes. simpl.
      rewrite eqb_refl. reflexivity.
    + intros other H. rewrite includes_app. unfold Listing.includes at 2.
      simpl. rewrite H, !orb_false_r. reflexivity.
Qed.

Lemma toggle_flips_one_feature_witness :
  Listing.includes (Listing.toggle (js "Pool") [js "Garage"; js "Pool"])
    (js "Garage")
  = Listing.includes [js "Garage"; js "Pool"] (js "Garage").
Proof.
  exact (proj2 (toggle_flips_one_feature (js "Pool") [js "Garage"; js "Pool"])
           (js "Garage") eq_refl).
Defined.

(** X12: a feature switched on and off again leaves the selection as it
    was, and toggling never makes a duplicate: a selection without
    repetitions stays without repetitions. *)
Theorem toggle_twice_and_no_duplicates feature prev :
  (Listing.includes prev feature = false ->
   Listing.toggle feature (Listing.toggle feature prev) = prev)
  /\ (NoDup prev -> NoDup (Listing.toggle feature prev)).
Proof.
  split.
  - intros H. unfold Listing.toggle at 2. rewrite H.
    unfold Listing.toggle.
    rewrite includes_app. unfold Listing.includes at 2. simpl.
    rewrite eqb_refl, orb_true_r.
    rewrite filter_app. simpl. rewrite eqb_refl. simpl.
    rewrite app_nil_r. apply filter_absent. exact H.
  - intros H. unfold Listing.toggle.
    destruct (Listing.includes prev feature) eqn:E.
    + apply NoDup_filter. exact H.
    + apply NoDup_app; [exact H|repeat constructor; auto|].
      intros x Hx [<-|[]]. apply includes_in in Hx. congruence.
Qed.

Lemma toggle_twice_and_no_duplicates_witness :
  Listing.toggle (js "Pool") (Listing.toggle (js "Pool") [js "Garage"])
  = [js "Garage"]
  /\ NoDup (Listing.toggle (js "Pool") [js "Garage"]).
Proof.
  split.
  - exact (proj1 (toggle_twice_and_no_duplicates (js "Pool") [js "Garage"])
             eq_refl).
  - apply (proj2 (toggle_twice_and_no_duplicates (js "Pool") [js "Garage"])).
    repeat constructor. simpl. tauto.
Defined.

Module ImageFacts.

Import Listing.

Lemma slice_to_room_length {A : Type} n (a : list A) :
  n <= 5 ->
  List.length (slice_to_room n a) = Nat.min (5 - n) (List.length a).
Proof.
  intros H. unfold slice_to_room.
  destruct (Nat.leb_spec n 5); [|lia]. apply length_firstn.
Qed.

Lemma splice_one_spec {A : Type} index : forall (a : list A),
  splice_one index a = firstn index a ++ skipn (S index) a.
Proof.
  induction index as [|i IH]; intros [|x a]; simpl; try reflexivity.
  rewrite IH. destruct a; reflexivity.
Qed.

Lemma splice_one_perm {A : Type} index : forall (a : list A) x,
  nth_error a index = Some x -> Permutation a (x :: splice_one index a).
Proof.
  induction index as [|i IH]; intros [|y a] x; simpl; try discriminate.
  - intros [= ->]. reflexivity.
  - intros H. rewrite perm_swap. constructor. apply IH. exact H.
Qed.

Lemma splice_one_length {A : Type} index : forall (a : list A),
  index < List.length a ->
  S (List.length (splice_one index a)) = List.length a.
Proof.
  induction index as [|i IH]; intros [|y a]; simpl; try lia.
  intros H. rewrite IH; lia.
Qed.

Lemma onDrop_images createObjectURL acceptedFiles st :
  images (form (onDrop createObjectURL acceptedFiles st))
  = firstn 5
      (images (form st)
       ++ map (fun f => {| file := f; preview := createObjectURL f |})
            (slice_to_room (List.length (images (form st))) acceptedFiles)).
Proof. reflexivity. Qed.

End ImageFacts.
Import ImageFacts.

(** X13: after a drop there are never more than five images; when there
    were at most five before, they are kept in place, in order, and the
    dropped files are appended in order as far as there is room, so that
    the count is the smaller of five and the total. *)
Theorem drop_keeps_at_most_five createObjectURL acceptedFiles st :
  List.length
    (Listing.images
       (Listing.form (Listing.onDrop createObjectURL acceptedFiles st))) <= 5
  /\ (List.length (Listing.images (Listing.form st)) <= 5 ->
      Listing.images
        (Listing.form (Listing.onDrop createObjectURL acceptedFiles st))
      = Listing.images (Listing.form st)
        ++ map (fun f => {| Listing.file := f;
                            Listing.preview := createObjectURL f |})
             (firstn (5 - List.length (Listing.images (Listing.form st)))
                acceptedFiles)
      /\ List.length
           (Listing.images
              (Listing.form (Listing.onDrop createObjectURL acceptedFiles st)))
         = Nat.min 5 (List.length (Listing.images (Listing.form st))
                      + List.length acceptedFiles)).
Proof.
  rewrite onDrop_images. split.
  - rewrite length_firstn. lia.
  - intros H. unfold Listing.slice_to_room.
    destruct (Nat.leb_spec (List.length (Listing.images (Listing.form st))) 5);
      [|lia].
    assert (L : List.length
                  (Listing.images (Listing.form st)
                   ++ map (fun f => {| Listing.file := f;
                                       Listing.preview := createObjectURL f |})
                        (firstn (5 - List.length
                                       (Listing.images (Listing.form st)))
                           acceptedFiles))
                = Nat.min 5 (List.length (Listing.images (Listing.form st))
                             + List.length acceptedFiles)).
    { rewrite length_app, length_map, length_firstn. lia. }
    rewrite firstn_all2 by lia. split; [reflexivity|exact L].
Qed.

Lemma drop_keeps_at_most_five_witness :
  Listing.images
    (Listing.form (Listing.onDrop (fun _ => js "blob:") [7; 8; 9]%N
                     four_images))
  = Listing.images (Listing.form four_images)
    ++ map (fun f => {| Listing.file := f; Listing.preview := js "blob:" |})
         (firstn (5 - List.length (Listing.images (Listing.form four_images)))
            [7; 8; 9]%N)
  /\ List.length
       (Listing.images
          (Listing.form (Listing.onDrop (fun _ => js "blob:") [7; 8; 9]%N
                           four_images)))
     = Nat.min 5 (List.length (Listing.images (Listing.form four_images))
                  + List.length [7; 8; 9]%N).
Proof.
  apply (proj2 (drop_keeps_at_most_five (fun _ => js "blob:") [7; 8; 9]%N
                  four_images)).
  simpl. lia.
Defined.

(** X14: removing the image at an index that exists revokes that image's
    preview URL and gives the other images in their order: the array
    before is the removed image and the array after, rearranged, and the
    array after is one shorter.  At an index with no image the updater
    throws. *)
Theorem remove_takes_one_image index prev :
  (forall img,
      nth_error prev index = Some img ->
      Listing.removeImage index prev
      = Some (Listing.preview img,
              firstn index prev ++ skipn (S index) prev)
      /\ Permutation prev (img :: Listing.splice_one index prev)
      /\ S (List.length (Listing.splice_one index prev)) = List.length prev)
  /\ (List.length prev <= index -> Listing.removeImage index prev = None).
Proof.
  split.
  - intros img H. unfold Listing.removeImage. rewrite H.
    rewrite splice_one_spec. split; [reflexivity|].
    rewrite <- splice_one_spec. split.
    + apply splice_one_perm. exact H.
    + apply splice_one_length. apply nth_error_Some. congruence.
  - intros H. unfold Listing.removeImage.
    apply nth_error_None in H. rewrite H. reflexivity.
Qed.

Lemma remove_takes_one_image_witness :
  (Listing.removeImage 1 (Listing.images (Listing.form four_images))
   = Some (js "blob:",
           firstn 1 (Listing.images (Listing.form four_images))
           ++ skipn 2 (Listing.images (Listing.form four_images)))
   /\ Permutation (Listing.images (Listing.form four_images))
        ({| Listing.file := 2%N; Listing.preview := js "blob:" |}
         :: Listing.splice_one 1 (Listing.images (Listing.form four_images)))
   /\ S (List.length
           (Listing.splice_one 1 (Listing.images (Listing.form four_images))))
      = List.length (Listing.images (Listing.form four_images)))
  /\ Listing.removeImage 4 (Listing.images (Listing.form four_images)) = None.
Proof.
  split.
  - exact (proj1 (remove_takes_one_image 1
                    (Listing.images (Listing.form four_images)))
             {| Listing.file := 2%N; Listing.preview := js "blob:" |} eq_refl).
  - apply (proj2 (remove_takes_one_image 4
                    (Listing.images (Listing.form four_images)))).
    simpl. lia.
Defined.



(** X16: when generating a listing succeeds the description and the caption
    are the two fields of the body, the error of an earlier request is
    gone, the loading flag is off, and the output sections are shown as
    soon as one of the two texts is not empty. *)
Theorem successful_generation_shows_output net st r d :
  net (Listing.buildFormData (Listing.form st)) = Listing.GenerateResponded r ->
  Listing.generated_ok r = true ->
  Listing.body r = inr d ->
  Listing.handleGenerate net st
  = Listing.setIsLoading false
      (Listing.setError []
         (Listing.setSocialCaption (Listing.data_social_caption d)
            (Listing.setDescription (Listing.data_description d) st)))
  /\ Listing.shows_error (Listing.handleGenerate net st) = false
  /\ Listing.shows_output (Listing.handleGenerate net st)
     = JS.truthy (Listing.data_description d)
       || JS.truthy (Listing.data_social_caption d).
Proof.
  intros Hn Hok Hb. unfold Listing.handleGenerate.
  change (Listing.buildFormData (Listing.form _))
    with (Listing.buildFormData (Listing.form st)).
  rewrite Hn, Hok, Hb. simpl. unfold Listing.shows_output, Listing.hasOutput.
  simpl. rewrite andb_true_r. repeat split.
Qed.

Lemma successful_generation_shows_output_witness :
  Listing.handleGenerate (fun _ => Listing.GenerateResponded listing_reply)
    (Listing.setError (js "earlier") Listing.shown)
  = Listing.setIsLoading false
      (Listing.setError []
         (Listing.setSocialCaption (js "New!")
            (Listing.setDescription (js "**Bright** home")
               (Listing.setError (js "earlier") Listing.shown))))
  /\ Listing.shows_error
       (Listing.handleGenerate
          (fun _ => Listing.GenerateResponded listing_reply)
          (Listing.setError (js "earlier") Listing.shown)) = false
  /\ Listing.shows_output
       (Listing.handleGenerate
          (fun _ => Listing.GenerateResponded listing_reply)
          (Listing.setError (js "earlier") Listing.shown))
     = JS.truthy (js "**Bright** home") || JS.truthy (js "New!").
Proof.
  exact (successful_generation_shows_output
           (fun _ => Listing.GenerateResponded listing_reply)
           (Listing.setError (js "earlier") Listing.shown)
           listing_reply
           {| Listing.detail := None;
              Listing.data_description := js "**Bright** home";
              Listing.data_social_caption := js "New!" |}
           eq_refl eq_refl eq_refl).
Defined.

(** X17: the output column always shows something: the error, the empty
    state, the loading skeleton or the output sections.  The skeleton and
    the output sections are never shown together, and the empty state is
    shown only when none of the other three is. *)
Theorem output_column_is_never_blank st :
  Listing.shows_error st || Listing.shows_empty_state st
  || Listing.shows_loading st || Listing.shows_output st = true
  /\ Listing.shows_loading st && Listing.shows_output st = false
  /\ Listing.shows_empty_state st
     = negb (Listing.shows_error st || Listing.shows_loading st
             || Listing.shows_output st).
Proof.
  unfold Listing.shows_error, Listing.shows_empty_state,
    Listing.shows_loading, Listing.shows_output.
  destruct (Listing.hasOutput st), (Listing.isLoading st),
    (JS.truthy (Listing.error st)); repeat split.
Qed.

Module SplitFacts.

Import Listing.

Lemma split_from_concat n : forall s pending,
  List.length s <= n ->
  List.concat (split_from pending s) = pending ++ s.
Proof.
  induction n as [|n IH]; intros s pending Hn.
  - destruct s; [|simpl in Hn; lia]. simp split_from. simpl.
    rewrite app_nil_r. reflexivity.
  - destruct s as [|c s].
    { apply IH. simpl. lia. }
    destruct (match_bold (c :: s)) as [[m rest]|] eqn:E.
    + rewrite (split_from_match pending c s m rest E).
      pose proof (match_bold_shorter _ _ _ E) as L. simpl in L, Hn.
      simpl. rewrite (IH rest []) by lia.
      rewrite (match_bold_app _ _ _ E). reflexivity.
    + rewrite (split_from_none pending c s E). simpl in Hn.
      rewrite (IH s (pending ++ [c])) by lia.
      rewrite <- app_assoc. reflexivity.
Qed.

Lemma render_part_length part :
  List.length (node_text (render_part part)) <= List.length part.
Proof.
  unfold render_part. destruct (starred part); simpl; [|lia].
  unfold JS.slice_between. rewrite length_firstn, length_skipn. lia.
Qed.

Lemma shown_text_length parts :
  List.length (shown_text parts) <= List.length (List.concat parts).
Proof.
  unfold shown_text. induction parts as [|p parts IH]; simpl; [lia|].
  rewrite !length_app. pose proof (render_part_length p). lia.
Qed.

Lemma no_star_no_match s : no_star s = true -> match_bold s = None.
Proof.
  destruct s as [|c1 [|c2 s]]; try reflexivity.
  unfold no_star. simpl. rewrite !andb_true_iff, !negb_true_iff.
  intros (H1 & _). unfold match_bold, two_stars. rewrite H1. reflexivity.
Qed.

Lemma no_star_split s : forall pending,
  no_star s = true -> split_from pending s = [pending ++ s].
Proof.
  induction s as [|c s IH]; intros pending H.
  - simp split_from. rewrite app_nil_r. reflexivity.
  - rewrite (split_from_none pending c s (no_star_no_match _ H)).
    unfold no_star in H. simpl in H. apply andb_true_iff in H.
    rewrite (IH _ (proj2 H)), <- app_assoc. reflexivity.
Qed.

End SplitFacts.
Import SplitFacts.

(** X18: the split loses nothing and the rendering adds nothing: the parts
    of a text, joined, are the text, and the text shown is never longer
    than the text given. *)
Theorem split_parts_join_to_the_text text :
  List.concat (Listing.split_bold text) = text
  /\ List.length (Listing.rendered_text (Listing.renderMarkdown text))
     <= List.length text.
Proof.
  assert (E : List.concat (Listing.split_bold text) = text).
  { apply (split_from_concat _ text [] (le_n _)). }
  split; [exact E|].
  unfold Listing.renderMarkdown. destruct text as [|c text]; [simpl; lia|].
  cbn [JS.truthy negb Listing.rendered_text].
  change (flat_map Listing.node_text
            (map Listing.render_part (Listing.split_bold (c :: text))))
    with (Listing.shown_text (Listing.split_bold (c :: text))).
  rewrite <- E at 2. apply shown_text_length.
Qed.

(** X19: a text without a star is rendered as it is, in one piece; the
    empty text renders as nothing. *)
Theorem text_without_stars_is_verbatim text :
  Listing.renderMarkdown [] = None
  /\ (JS.truthy text = true ->
      forallb (fun c => negb (N.eqb c Listing.STAR)) text = true ->
      Listing.renderMarkdown text = Some [Listing.Text text]).
Proof.
  split; [reflexivity|]. intros Ht Hs.
  unfold Listing.renderMarkdown, Listing.split_bold. rewrite Ht. simpl.
  rewrite (no_star_split text [] Hs). simpl.
  unfold Listing.render_part, Listing.starred.
  destruct text as [|c text]; [discriminate|].
  simpl in Hs. apply andb_true_iff in Hs. destruct Hs as [Hc _].
  apply negb_true_iff in Hc.
  change (js "**") with [Listing.STAR; Listing.STAR].
  rewrite startsWith_cons, N.eqb_sym, Hc. reflexivity.
Qed.

Lemma text_without_stars_is_verbatim_witness :
  Listing.renderMarkdown (js "Sunny 3-bed home") 
  = Some [Listing.Text (js "Sunny 3-bed home")].
Proof.
  exact (proj2 (text_without_stars_is_verbatim (js "Sunny 3-bed home"))
           eq_refl eq_refl).
Defined.

(** X20: where no part between the matches begins and ends with two stars,
    the text shown is the text without the two stars at each end of every
    match of the pattern, the other characters in their order. *)
Theorem marked_text_is_shown_unmarked text :
  Forall (fun p => Listing.starred p = false)
    (Listing.unmatched (Listing.split_bold text)) ->
  Listing.rendered_text (Listing.renderMarkdown text) = Listing.unmarked text.
Proof. apply render_shows_unmarked. Qed.

Lemma marked_text_is_shown_unmarked_witness :
  Listing.rendered_text (Listing.renderMarkdown (js "A **bright** house"))
  = Listing.unmarked (js "A **bright** house").
Proof.
  apply (marked_text_is_shown_unmarked (js "A **bright** house")).
  repeat constructor.
Defined.

(** X21: a regeneration that succeeds replaces its own section only,
    whatever the server does for the other section: the other section, and
    an error message left by an earlier request, stay as they were.  When
    the body of an ok response does not parse, both sections stay and the
    parser's message becomes the error. *)
Theorem regeneration_replaces_one_section net st :
  (forall r,
      net (Listing.regenerate_request (js "description") st)
      = Listing.Responded r ->
      Listing.ok r = true ->
      match Listing.json r with
      | inr data_content =>
          Listing.handleRegenerateDescription net st
          = Listing.setIsRegeneratingDescription false
              (Listing.setDescription data_content st)
          /\ Listing.socialCaption (Listing.handleRegenerateDescription net st)
             = Listing.socialCaption st
          /\ Listing.error (Listing.handleRegenerateDescription net st)
             = Listing.error st
      | inl m =>
          Listing.handleRegenerateDescription net st
          = Listing.setIsRegeneratingDescription false (Listing.setError m st)
      end)
  /\ (forall r,
         net (Listing.regenerate_request (js "social") st)
         = Listing.Responded r ->
         Listing.ok r = true ->
         match Listing.json r with
         | inr data_content =>
             Listing.handleRegenerateSocial net st
             = Listing.setIsRegeneratingSocial false
                 (Listing.setSocialCaption data_content st)
             /\ Listing.description (Listing.handleRegenerateSocial net st)
                = Listing.description st
             /\ Listing.error (Listing.handleRegenerateSocial net st)
                = Listing.error st
         | inl m =>
             Listing.handleRegenerateSocial net st
             = Listing.setIsRegeneratingSocial false (Listing.setError m st)
         end).
Proof.
  unfold Listing.handleRegenerateDescription, Listing.handleRegenerateSocial,
    Listing.regenerate.
  change (Listing.regenerate_request (js "description") _)
    with (Listing.regenerate_request (js "description") st).
  change (Listing.regenerate_request (js "social") _)
    with (Listing.regenerate_request (js "social") st).
  split; intros r Hn Hok; rewrite Hn, Hok; simpl;
    destruct (Listing.json r); repeat split.
Qed.

Lemma regeneration_replaces_one_section_witness :
  (Listing.handleRegenerateDescription social_down shown_with_error
   = Listing.setIsRegeneratingDescription false
       (Listing.setDescription (js "A new description") shown_with_error)
   /\ Listing.socialCaption
        (Listing.handleRegenerateDescription social_down shown_with_error)
      = js "Just listed"
   /\ Listing.error
        (Listing.handleRegenerateDescription social_down shown_with_error)
      = js "Failed to regenerate")
  /\ (Listing.handleRegenerateSocial description_down shown_with_error
      = Listing.setIsRegeneratingSocial false
          (Listing.setSocialCaption (js "A new caption") shown_with_error)
      /\ Listing.description
           (Listing.handleRegenerateSocial description_down shown_with_error)
         = js "A **bright** house"
      /\ Listing.error
           (Listing.handleRegenerateSocial description_down shown_with_error)
         = js "Failed to regenerate").
Proof.
  split.
  - exact (proj1 (regeneration_replaces_one_section social_down
                    shown_with_error)
             {| Listing.ok := true;
                Listing.json := inr (js "A new description") |}
             eq_refl eq_refl).
  - exact (proj2 (regeneration_replaces_one_section description_down
                    shown_with_error)
             {| Listing.ok := true; Listing.json := inr (js "A new caption") |}
             eq_refl eq_refl).
Defined.

(** X22: what a submission leaves and sends depends on the form inputs
    only (prompt, writing type, tone, streaming switch), not on the
    content, the error or the loading flag it finds; so submitting again
    after a request has ended, to a network that answers the same, gives
    the same result. *)
Theorem submission_depends_on_inputs_only net st1 st2 :
  Writing.prompt st1 = Writing.prompt st2 ->
  Writing.writingType st1 = Writing.writingType st2 ->
  Writing.tone st1 = Writing.tone st2 ->
  Writing.useStreaming st1 = Writing.useStreaming st2 ->
  Writing.handleSubmit net st1 = Writing.handleSubmit net st2.
Proof.
  destruct st1, st2. simpl. intros -> -> -> ->. reflexivity.
Qed.

Lemma submission_depends_on_inputs_only_witness :
  Writing.handleSubmit (Writing.always (Writing.streamed error_stream))
    (fst (Writing.handleSubmit
            (Writing.always (Writing.streamed error_stream)) ready))
  = Writing.handleSubmit (Writing.always (Writing.streamed error_stream)) ready.
Proof.
  exact (submission_depends_on_inputs_only
           (Writing.always (Writing.streamed error_stream))
           (fst (Writing.handleSubmit
                   (Writing.always (Writing.streamed error_stream)) ready))
           ready eq_refl eq_refl eq_refl eq_refl).
Defined.
